(** * BudgetEase: the data-access and aggregation layer of [main.py]

    A shallow embedding of the SQLAlchemy models and of the FastAPI handlers
    of [src/main.py], followed by the properties of the handlers.

    Conventions of the embedding.
    - A table is the list of its rows, in storage order; the database is the
      record of the three tables and is threaded explicitly through the
      handlers that write ([delete_user], [extend_budget]).
    - The columns carried by the request schemas of the source
      ([TransactionCreate], [BudgetCreate], [UserCreate]) hold a value, as
      does the primary key; [date] holds one by its column default.  The
      foreign key [user_id], which no schema sets, is nullable.
    - [Float] amounts are exact rationals ([Q]): the rounding of binary
      floating point is outside the model.
    - A handler either returns its payload or raises; what it raises is kept
      ([HTTPException] with its status code, or the Python run-time error). *)

From Stdlib Require Import List String ZArith QArith Qfield Bool Lia.
Import ListNotations.

Local Open Scope string_scope.
Local Open Scope list_scope.
Local Open Scope Z_scope.

(* ------------------------------------------------------------------ *)
(** ** Outcomes of a handler *)

Inductive error : Type :=
| HTTPException (status_code : Z) (detail : string)
| AttributeError   (* attribute access on [None] *)
| TypeError        (* [None > x], [None / x], [None[0]] *)
| OverflowError    (* date value out of range *)
| ValueError.      (* day is out of range for month *)

Inductive result (A : Type) : Type :=
| Ok (a : A)
| Raise (e : error).
Arguments Ok {A} a.
Arguments Raise {A} e.

Definition bind {A B : Type} (r : result A) (k : A -> result B) : result B :=
  match r with
  | Ok a => k a
  | Raise e => Raise e
  end.

Notation "x <- r ;; k" := (bind r (fun x => k))
  (at level 61, r at next level, right associativity).

(** The "not found" signal of the layer is the 404 response. *)
Definition is_not_found {A : Type} (r : result A) : bool :=
  match r with
  | Raise (HTTPException 404 _) => true
  | _ => false
  end.

(* ------------------------------------------------------------------ *)
(** ** Naive [datetime] values *)

Module Datetime.

Record t : Type := mk {
  year : Z; month : Z; day : Z;
  hour : Z; minute : Z; second : Z; microsecond : Z
}.

(** Comparison is field by field, most significant first; this is both
    Python's order on naive datetimes and the order of the fixed-width
    text under which the column is stored. *)
Definition lex (c1 c2 : comparison) : comparison :=
  match c1 with
  | Eq => c2
  | _ => c1
  end.

Definition compare (a b : t) : comparison :=
  lex (year a ?= year b)
 (lex (month a ?= month b)
 (lex (day a ?= day b)
 (lex (hour a ?= hour b)
 (lex (minute a ?= minute b)
 (lex (second a ?= second b)
      (microsecond a ?= microsecond b)))))).

Definition leb (a b : t) : bool :=
  match compare a b with
  | Gt => false
  | _ => true
  end.

Definition ltb (a b : t) : bool :=
  match compare a b with
  | Lt => true
  | _ => false
  end.

Definition is_leap (y : Z) : bool :=
  (y mod 4 =? 0) && (negb (y mod 100 =? 0) || (y mod 400 =? 0)).

Definition days_in_month (y m : Z) : Z :=
  if m =? 2 then (if is_leap y then 29 else 28)
  else if (m =? 4) || (m =? 6) || (m =? 9) || (m =? 11) then 30
  else 31.

Definition MAXYEAR : Z := 9999.

(** [d.replace(day=v)]: [ValueError] when the month has no such day. *)
Definition replace_day (d : t) (v : Z) : result t :=
  if (1 <=? v) && (v <=? days_in_month (year d) (month d))
  then Ok (mk (year d) (month d) v
              (hour d) (minute d) (second d) (microsecond d))
  else Raise ValueError.

(** [d + timedelta(days=1)]: the time of day is untouched. *)
Definition next_day (d : t) : result t :=
  if day d <? days_in_month (year d) (month d)
  then Ok (mk (year d) (month d) (day d + 1)
              (hour d) (minute d) (second d) (microsecond d))
  else if month d <? 12
  then Ok (mk (year d) (month d + 1) 1
              (hour d) (minute d) (second d) (microsecond d))
  else if year d <? MAXYEAR
  then Ok (mk (year d + 1) 1 1
              (hour d) (minute d) (second d) (microsecond d))
  else Raise OverflowError.

(** [d + timedelta(days=n)] for a non-negative whole number of days. *)
Fixpoint add_days (n : nat) (d : t) : result t :=
  match n with
  | O => Ok d
  | S n' => d' <- next_day d ;; add_days n' d'
  end.

End Datetime.

(* ------------------------------------------------------------------ *)
(** ** The three models *)

Module User.
Record t : Type := mk {
  id : Z;
  name : string;
  email : string
}.
End User.

Module Transaction.
Record t : Type := mk {
  id : Z;
  description : string;
  amount : Q;
  date : Datetime.t;
  category : string;
  user_id : option Z
}.
End Transaction.

Module Budget.
Record t : Type := mk {
  id : Z;
  name : string;
  amount : Q;
  category : string;
  start_date : Datetime.t;
  end_date : Datetime.t;
  user_id : option Z
}.
End Budget.

Record Db : Type := mkDb {
  users : list User.t;
  transactions : list Transaction.t;
  budgets : list Budget.t
}.

(* ------------------------------------------------------------------ *)
(** ** Query primitives *)

(** [col == v] where [v] is a Python value: with [v = None] the ORM emits
    [col IS NULL], so the test is equality of optional values. *)
Definition opt_eqb (a b : option Z) : bool :=
  match a, b with
  | Some x, Some y => x =? y
  | None, None => true
  | _, _ => false
  end.

(** [Query.first()]. *)
Definition first {A : Type} (rows : list A) : option A :=
  match rows with
  | [] => None
  | r :: _ => Some r
  end.

(** [func.sum(col)] then [.scalar()]: NULL over no row, else the running
    total of the rows in order. *)
Definition sum_step (acc : option Q) (x : Q) : option Q :=
  match acc with
  | None => Some x
  | Some a => Some (a + x)%Q
  end.

Definition func_sum (xs : list Q) : option Q := fold_left sum_step xs None.

(** [Query.count()]. *)
Definition count {A : Type} (rows : list A) : Z :=
  fold_left (fun n _ => n + 1) rows 0.

(** Python's [a > b] on two numbers. *)
Definition Qgtb (a b : Q) : bool := negb (Qle_bool a b).

(** [total > amount] where [total] may be [None]. *)
Definition py_gt (total : option Q) (amount : Q) : result bool :=
  match total with
  | None => Raise TypeError
  | Some s => Ok (Qgtb s amount)
  end.

(** [total / amount] where [total] may be [None]; used only under the
    guard [amount > 0], so the divisor is never zero. *)
Definition py_div (total : option Q) (amount : Q) : result Q :=
  match total with
  | None => Raise TypeError
  | Some s => Ok (s / amount)%Q
  end.

(** [GROUP BY category] with [sum(amount)]: each row is added to the
    accumulator of its category, a new accumulator being opened for a
    category not met before. *)
Fixpoint add_to_group (c : string) (x : Q) (groups : list (string * Q))
  : list (string * Q) :=
  match groups with
  | [] => [(c, x)]
  | (c', s) :: gs =>
      if String.eqb c' c then (c', (s + x)%Q) :: gs
      else (c', s) :: add_to_group c x gs
  end.

Definition group_by_sum (rows : list Transaction.t) : list (string * Q) :=
  fold_left
    (fun gs t => add_to_group (Transaction.category t) (Transaction.amount t) gs)
    rows [].

(** [ORDER BY sum(amount) DESC].  The engine leaves the order of rows with
    equal totals open; the model keeps them in group order. *)
Fixpoint insert_desc (r : string * Q) (l : list (string * Q))
  : list (string * Q) :=
  match l with
  | [] => [r]
  | r' :: l' =>
      if Qle_bool (snd r') (snd r) then r :: l
      else r' :: insert_desc r l'
  end.

Definition order_by_desc (l : list (string * Q)) : list (string * Q) :=
  fold_right insert_desc [] l.

(* ------------------------------------------------------------------ *)
(** ** Handlers *)

Definition not_found (detail : string) : error := HTTPException 404 detail.

(** [db.delete(db_user)] followed by [db.commit()].  The two relationships
    of [User] ([transactions] and [budgets], lines 25 and 26 of [main.py])
    are declared with the default cascade, which has no delete cascade and
    no [passive_deletes].  For such a relationship the ORM, when the parent
    is deleted, de-associates the children: at flush it loads the rows that
    reference the user and sets their foreign key [user_id] to NULL, then
    deletes the user's row.  The children themselves are not deleted. *)
Definition detach_transaction (uid : Z) (t : Transaction.t) : Transaction.t :=
  if opt_eqb (Transaction.user_id t) (Some uid)
  then Transaction.mk (Transaction.id t) (Transaction.description t)
         (Transaction.amount t) (Transaction.date t) (Transaction.category t)
         None
  else t.

Definition detach_budget (uid : Z) (b : Budget.t) : Budget.t :=
  if opt_eqb (Budget.user_id b) (Some uid)
  then Budget.mk (Budget.id b) (Budget.name b) (Budget.amount b)
         (Budget.category b) (Budget.start_date b) (Budget.end_date b)
         None
  else b.

(** [db.query(User).filter(User.id == user_id).first()]. *)
Definition user_by_id (user_id : Z) (db : Db) : option User.t :=
  first (filter (fun u => User.id u =? user_id) (users db)).

Definition delete_user (user_id : Z) (db : Db) : result string * Db :=
  let db_user := user_by_id user_id db in
  match db_user with
  | None => (Raise (not_found "User not found"), db)
  | Some u =>
      (Ok "User deleted",
       mkDb (filter (fun u' => negb (User.id u' =? User.id u)) (users db))
            (map (detach_transaction (User.id u)) (transactions db))
            (map (detach_budget (User.id u)) (budgets db)))
  end.

Definition filter_transactions_by_date (start_date end_date : Datetime.t)
  (db : Db) : list Transaction.t :=
  filter (fun t => Datetime.leb start_date (Transaction.date t)
                   && Datetime.leb (Transaction.date t) end_date)
         (transactions db).

Definition filter_transactions_by_category (category : string) (db : Db)
  : list Transaction.t :=
  filter (fun t => String.eqb (Transaction.category t) category)
         (transactions db).

Definition get_total_spent (user_id : Z) (db : Db) : option Q :=
  func_sum
    (map Transaction.amount
       (filter (fun t => opt_eqb (Transaction.user_id t) (Some user_id))
               (transactions db))).

(** [db.query(Budget).filter(Budget.id == budget_id).first()]. *)
Definition budget_by_id (budget_id : Z) (db : Db) : option Budget.t :=
  first (filter (fun b => Budget.id b =? budget_id) (budgets db)).

Definition set_end_date (b : Budget.t) (d : Datetime.t) : Budget.t :=
  Budget.mk (Budget.id b) (Budget.name b) (Budget.amount b)
    (Budget.category b) (Budget.start_date b) d (Budget.user_id b).

Definition extend_budget (budget_id : Z) (new_end_date : Datetime.t) (db : Db)
  : result Budget.t * Db :=
  let db_budget := budget_by_id budget_id db in
  match db_budget with
  | None => (Raise (not_found "Budget not found"), db)
  | Some b =>
      (Ok (set_end_date b new_end_date),
       mkDb (users db) (transactions db)
            (map (fun b' => if Budget.id b' =? Budget.id b
                            then set_end_date b' new_end_date else b')
                 (budgets db)))
  end.

(** The rows summed by both budget analytics: same user, same category. *)
Definition budget_rows (b : Budget.t) (db : Db) : list Transaction.t :=
  filter (fun t => opt_eqb (Transaction.user_id t) (Budget.user_id b)
                   && String.eqb (Transaction.category t) (Budget.category b))
         (transactions db).

(** [db_budget.user_id] where [db_budget] may be [None]. *)
Definition deref (db_budget : option Budget.t) : result Budget.t :=
  match db_budget with
  | None => Raise AttributeError
  | Some b => Ok b
  end.

Definition check_budget_exceeded (budget_id : Z) (db : Db) : result bool :=
  let db_budget := budget_by_id budget_id db in
  b <- deref db_budget ;;
  let total_spent := func_sum (map Transaction.amount (budget_rows b db)) in
  py_gt total_spent (Budget.amount b).

Definition get_transactions_count_by_category (category : string) (db : Db) : Z :=
  count (filter (fun t => String.eqb (Transaction.category t) category)
                (transactions db)).

Definition get_budget_utilization (budget_id : Z) (db : Db) : result Q :=
  let db_budget := budget_by_id budget_id db in
  b <- deref db_budget ;;
  let total_spent := func_sum (map Transaction.amount (budget_rows b db)) in
  if Qgtb (Budget.amount b) 0 then py_div total_spent (Budget.amount b)
  else Ok 0%Q.

(** [now] is what [datetime.now()] returns when the handler runs. *)
Definition get_monthly_spending_report (user_id : Z) (now : Datetime.t) (db : Db)
  : result (option Q) :=
  start_date <- Datetime.replace_day now 1 ;;
  shifted <- Datetime.add_days 31 start_date ;;
  end_date <- Datetime.replace_day shifted 1 ;;
  Ok (func_sum
        (map Transaction.amount
           (filter (fun t => opt_eqb (Transaction.user_id t) (Some user_id)
                             && Datetime.leb start_date (Transaction.date t)
                             && Datetime.ltb (Transaction.date t) end_date)
                   (transactions db)))).

Definition get_highest_spending_category (db : Db) : result (string * Q) :=
  let result := first (order_by_desc (group_by_sum (transactions db))) in
  match result with
  | None => Raise TypeError
  | Some row => Ok (fst row, snd row)
  end.

(* ------------------------------------------------------------------ *)
(** ** Reference notions used in the statements *)

(** The mathematical sum of a list of amounts. *)
Definition Qsum (xs : list Q) : Q := fold_right Qplus 0%Q xs.

(** Total amount of the rows of one category. *)
Definition category_total (c : string) (rows : list Transaction.t) : Q :=
  Qsum (map Transaction.amount
          (filter (fun t => String.eqb (Transaction.category t) c) rows)).

(** The order on datetimes as a proposition. *)
Definition dt_le (a b : Datetime.t) : Prop := Datetime.compare a b <> Gt.

(** The calendar month of [now], as the specification words it: from the
    first instant of the month to the first instant of the next one. *)
Definition spec_month_start (now : Datetime.t) : Datetime.t :=
  Datetime.mk (Datetime.year now) (Datetime.month now) 1 0 0 0 0.

Definition spec_month_end (now : Datetime.t) : Datetime.t :=
  if Datetime.month now =? 12
  then Datetime.mk (Datetime.year now + 1) 1 1 0 0 0 0
  else Datetime.mk (Datetime.year now) (Datetime.month now + 1) 1 0 0 0 0.

Definition spec_monthly_rows (user_id : Z) (now : Datetime.t) (db : Db)
  : list Transaction.t :=
  filter (fun t => opt_eqb (Transaction.user_id t) (Some user_id)
                   && Datetime.leb (spec_month_start now) (Transaction.date t)
                   && Datetime.ltb (Transaction.date t) (spec_month_end now))
         (transactions db).

(** The transactions of one user. *)
Definition user_rows (user_id : Z) (db : Db) : list Transaction.t :=
  filter (fun t => opt_eqb (Transaction.user_id t) (Some user_id))
         (transactions db).

(** [d] with its day replaced, everything else kept. *)
Definition set_day (d : Datetime.t) (v : Z) : Datetime.t :=
  Datetime.mk (Datetime.year d) (Datetime.month d) v
    (Datetime.hour d) (Datetime.minute d) (Datetime.second d)
    (Datetime.microsecond d).

(** The first day of the month after the one of [d], at [d]'s time of day. *)
Definition next_month_first (d : Datetime.t) : Datetime.t :=
  if Datetime.month d =? 12
  then Datetime.mk (Datetime.year d + 1) 1 1
         (Datetime.hour d) (Datetime.minute d) (Datetime.second d)
         (Datetime.microsecond d)
  else Datetime.mk (Datetime.year d) (Datetime.month d + 1) 1
         (Datetime.hour d) (Datetime.minute d) (Datetime.second d)
         (Datetime.microsecond d).

(** The window the handler really uses: the first day of the month and of
    the next month, both at the time of day of [now]. *)
Definition window_start (now : Datetime.t) : Datetime.t := set_day now 1.
Definition window_end (now : Datetime.t) : Datetime.t := next_month_first now.

(** What the groups of [GROUP BY] hold after the rows [rows] have been
    read: one group per category met, holding the total of that category. *)
Definition groups_of (rows : list Transaction.t) (gs : list (string * Q)) : Prop :=
  NoDup (map fst gs) /\
  (forall c s, In (c, s) gs ->
     In c (map Transaction.category rows) /\ (s == category_total c rows)%Q) /\
  (forall c, In c (map Transaction.category rows) -> In c (map fst gs)).

(* ------------------------------------------------------------------ *)
(** ** Sample data *)

Definition at_ (y m d h : Z) : Datetime.t := Datetime.mk y m d h 0 0 0.

Definition txn (i : Z) (a : Q) (c : string) (d : Datetime.t) (u : option Z)
  : Transaction.t :=
  Transaction.mk i "" a d c u.

(** One user, one budget of 100 on "food", no transaction. *)
Definition db_fresh_budget : Db :=
  mkDb [User.mk 1 "ann" "ann@example.org"]
       []
       [Budget.mk 1 "groceries" 100 "food" (at_ 2024 1 1 0) (at_ 2024 12 31 0) (Some 1)].

(** The same with two "food" transactions of the user and one of "fun". *)
Definition db_spent : Db :=
  mkDb [User.mk 1 "ann" "ann@example.org"]
       [txn 1 60 "food" (at_ 2024 3 1 9) (Some 1);
        txn 2 50 "food" (at_ 2024 3 20 9) (Some 1);
        txn 3 5 "fun" (at_ 2024 4 1 9) (Some 1)]
       [Budget.mk 1 "groceries" 100 "food" (at_ 2024 1 1 0) (at_ 2024 12 31 0) (Some 1);
        Budget.mk 2 "free" 0 "fun" (at_ 2024 1 1 0) (at_ 2024 12 31 0) (Some 1)].

(** The three transactions A:30, B:50, A:10. *)
Definition db_abc : Db :=
  mkDb []
       [txn 1 30 "A" (at_ 2024 3 1 9) None;
        txn 2 50 "B" (at_ 2024 3 2 9) None;
        txn 3 10 "A" (at_ 2024 3 3 9) None]
       [].

Definition db_empty : Db := mkDb [] [] [].

(* ------------------------------------------------------------------ *)
(** ** The other handlers: users, listings and totals *)

(** The request body of [create_user] and [update_user]. *)
Module UserCreate.
Record t : Type := mk {
  name : string;
  email : string
}.
End UserCreate.

(** What stops a handler that writes: an exception of the handler itself,
    or the [IntegrityError] that [db.commit()] raises when the UNIQUE
    constraint of [users.email] is violated.  In both cases nothing is
    stored. *)
Inductive failure : Type :=
| Handler (e : error)
| IntegrityError (constraint : string).

Inductive outcome (A : Type) : Type :=
| Returned (a : A)
| Failed (f : failure).
Arguments Returned {A} a.
Arguments Failed {A} f.

(** Some row of [rows] holds [email]. *)
Definition email_taken (email : string) (rows : list User.t) : bool :=
  existsb (fun u => String.eqb (User.email u) email) rows.

(** [new_id] is the primary key that the storage gives to the inserted row;
    the row comes after the stored ones. *)
Definition create_user (new_id : Z) (user : UserCreate.t) (db : Db)
  : outcome User.t * Db :=
  let db_user := User.mk new_id (UserCreate.name user) (UserCreate.email user) in
  if email_taken (User.email db_user) (users db)
  then (Failed (IntegrityError "users.email"), db)
  else (Returned db_user,
        mkDb (users db ++ [db_user]) (transactions db) (budgets db)).

Definition get_user (user_id : Z) (db : Db) : result User.t :=
  let db_user := user_by_id user_id db in
  match db_user with
  | None => Raise (not_found "User not found")
  | Some u => Ok u
  end.

(** Both fields of [UserCreate] are required, so [user.dict(exclude_unset=True)]
    holds both and the loop sets [name] and [email]. *)
Definition set_fields (user : UserCreate.t) (u : User.t) : User.t :=
  User.mk (User.id u) (UserCreate.name user) (UserCreate.email user).

Definition update_user (user_id : Z) (user : UserCreate.t) (db : Db)
  : outcome User.t * Db :=
  let db_user := user_by_id user_id db in
  match db_user with
  | None => (Failed (Handler (not_found "User not found")), db)
  | Some u =>
      if email_taken (UserCreate.email user)
           (filter (fun u' => negb (User.id u' =? User.id u)) (users db))
      then (Failed (IntegrityError "users.email"), db)
      else (Returned (set_fields user u),
            mkDb (map (fun u' => if User.id u' =? User.id u
                                 then set_fields user u' else u')
                      (users db))
                 (transactions db) (budgets db))
  end.

Definition filter_users_by_email (email : string) (db : Db) : list User.t :=
  filter (fun u => String.eqb (User.email u) email) (users db).

Definition get_transactions_for_user (user_id : Z) (db : Db)
  : list Transaction.t :=
  filter (fun t => opt_eqb (Transaction.user_id t) (Some user_id))
         (transactions db).

Definition get_total_transactions_count (db : Db) : Z :=
  count (transactions db).

Definition filter_budgets_by_category (category : string) (db : Db)
  : list Budget.t :=
  filter (fun b => String.eqb (Budget.category b) category) (budgets db).

Definition get_budgets_for_user (user_id : Z) (db : Db) : list Budget.t :=
  filter (fun b => opt_eqb (Budget.user_id b) (Some user_id)) (budgets db).

Definition get_total_budget (user_id : Z) (db : Db) : option Q :=
  func_sum
    (map Budget.amount
       (filter (fun b => opt_eqb (Budget.user_id b) (Some user_id))
               (budgets db))).

Definition get_total_spending_by_category (category : string) (db : Db)
  : option Q :=
  func_sum
    (map Transaction.amount
       (filter (fun t => String.eqb (Transaction.category t) category)
               (transactions db))).

(** The two constraints of the [users] table: [id] is the primary key and
    [email] is UNIQUE. *)
Definition users_wf (db : Db) : Prop :=
  NoDup (map User.id (users db)) /\ NoDup (map User.email (users db)).

(** What [extend_budget budget_id d] makes of a stored budget. *)
Definition extended (budget_id : Z) (d : Datetime.t) (b : Budget.t) : Budget.t :=
  if Budget.id b =? budget_id then set_end_date b d else b.

(** A budget with a negative amount and one matching transaction. *)
Definition db_negative_budget : Db :=
  mkDb [User.mk 1 "ann" "ann@example.org"]
       [txn 1 60 "food" (at_ 2024 3 1 9) (Some 1)]
       [Budget.mk 1 "refund" (-5) "food" (at_ 2024 1 1 0) (at_ 2024 12 31 0) (Some 1)].

(** Two users, the transactions and budgets of [db_spent] for the first. *)
Definition db_two_users : Db :=
  mkDb [User.mk 1 "ann" "ann@example.org"; User.mk 2 "bob" "bob@example.org"]
       (transactions db_spent) (budgets db_spent).

(* ------------------------------------------------------------------ *)
(** ** Aggregates *)

Section Aggregates.

Lemma bind_ok {A B : Type} (a : A) (k : A -> result B) : bind (Ok a) k = k a.
Proof. reflexivity. Qed.

Lemma fold_sum_from (xs : list Q) :
  forall a, exists s, fold_left sum_step xs (Some a) = Some s /\ (s == a + Qsum xs)%Q.
Proof.
  induction xs as [|x xs IH]; intros a; simpl.
  - exists a. split; [reflexivity | ring].
  - destruct (IH (a + x)%Q) as [s [Hs Heq]].
    exists s. split; [exact Hs | rewrite Heq; ring].
Qed.

Lemma func_sum_nil : func_sum [] = None.
Proof. reflexivity. Qed.

Lemma func_sum_cons (x : Q) (xs : list Q) :
  exists s, func_sum (x :: xs) = Some s /\ (s == Qsum (x :: xs))%Q.
Proof.
  unfold func_sum; simpl.
  destruct (fold_sum_from xs x) as [s [Hs Heq]].
  exists s. split; [exact Hs | exact Heq].
Qed.

Lemma func_sum_none_iff (xs : list Q) : func_sum xs = None <-> xs = [].
Proof.
  split.
  - destruct xs as [|x xs]; [reflexivity|].
    destruct (func_sum_cons x xs) as [s [Hs _]]. congruence.
  - intros ->. reflexivity.
Qed.

Lemma count_from {A : Type} (rows : list A) :
  forall n, fold_left (fun k (_ : A) => k + 1) rows n = n + Z.of_nat (List.length rows).
Proof.
  induction rows as [|r rows IH]; intros n; simpl List.length.
  - simpl. lia.
  - simpl fold_left. rewrite IH. lia.
Qed.

Lemma count_length {A : Type} (rows : list A) :
  count rows = Z.of_nat (List.length rows).
Proof. unfold count. rewrite count_from. lia. Qed.

End Aggregates.

Lemma Qgtb_true_iff (a b : Q) : Qgtb a b = true <-> (b < a)%Q.
Proof.
  unfold Qgtb. rewrite negb_true_iff.
  split.
  - intros H. apply Qnot_le_lt. intros Hle.
    apply Qle_bool_iff in Hle. congruence.
  - intros H. destruct (Qle_bool a b) eqn:E; [|reflexivity].
    apply Qle_bool_iff in E. exfalso. exact (Qlt_not_le _ _ H E).
Qed.

Lemma opt_eqb_eq (a b : option Z) : opt_eqb a b = true <-> a = b.
Proof.
  destruct a as [x|], b as [y|]; simpl; split; intros H;
    try congruence; try reflexivity.
  - apply Z.eqb_eq in H. congruence.
  - apply Z.eqb_eq. congruence.
Qed.

(* ------------------------------------------------------------------ *)
(** ** Budget analytics *)

Section BudgetAnalytics.

Variable db : Db.
Variable budget_id : Z.

(** A budget id is absent when no row of [budgets] carries it. *)
Lemma lookup_none_iff :
  budget_by_id budget_id db = None <-> forall b, In b (budgets db) -> Budget.id b <> budget_id.
Proof.
  unfold budget_by_id.
  split.
  - intros H b Hin Hid.
    assert (Hf : In b (filter (fun b => Budget.id b =? budget_id) (budgets db))).
    { apply filter_In. split; [exact Hin | apply Z.eqb_eq; exact Hid]. }
    destruct (filter (fun b => Budget.id b =? budget_id) (budgets db));
      [contradiction | discriminate].
  - intros H.
    destruct (filter (fun b => Budget.id b =? budget_id) (budgets db)) as [|b l] eqn:E;
      [reflexivity|].
    assert (Hf : In b (filter (fun b => Budget.id b =? budget_id) (budgets db))).
    { rewrite E. left. reflexivity. }
    apply filter_In in Hf. destruct Hf as [Hin Hid].
    apply Z.eqb_eq in Hid. exfalso. exact (H b Hin Hid).
Qed.

Lemma lookup_some (b : Budget.t) :
  budget_by_id budget_id db = Some b -> In b (budgets db) /\ Budget.id b = budget_id.
Proof.
  unfold budget_by_id. intros H.
  assert (Hf : In b (filter (fun b => Budget.id b =? budget_id) (budgets db))).
  { destruct (filter (fun b => Budget.id b =? budget_id) (budgets db));
      [discriminate | injection H as ->; left; reflexivity]. }
  apply filter_In in Hf. destruct Hf as [Hin Hid].
  split; [exact Hin | apply Z.eqb_eq; exact Hid].
Qed.

(** C1.  On a budget id that no budget carries, [check_budget_exceeded]
    and [get_budget_utilization] do not answer "not found": each raises
    [AttributeError] (the handler reads [db_budget.user_id] with
    [db_budget] being [None]), which is not the 404 signal that
    [extend_budget] gives for the same condition. *)
Theorem analytics_on_absent_budget_raise_attribute_error :
  (forall b, In b (budgets db) -> Budget.id b <> budget_id) ->
  check_budget_exceeded budget_id db = Raise AttributeError /\
  get_budget_utilization budget_id db = Raise AttributeError /\
  is_not_found (check_budget_exceeded budget_id db) = false /\
  is_not_found (get_budget_utilization budget_id db) = false /\
  (forall d, is_not_found (fst (extend_budget budget_id d db)) = true).
Proof.
  intros Habs. apply lookup_none_iff in Habs.
  unfold check_budget_exceeded, get_budget_utilization, extend_budget.
  rewrite Habs. simpl. repeat split; reflexivity.
Qed.

(** C2.  For an existing budget, [check_budget_exceeded] answers only when
    at least one transaction has the budget's user and category: then the
    answer is [true] exactly when the sum of their amounts is strictly
    above the budget's amount.  When no transaction matches (a fresh
    budget) the handler does not answer [false]: it raises [TypeError]. *)
Theorem check_budget_exceeded_spec (b : Budget.t) :
  budget_by_id budget_id db = Some b ->
  match budget_rows b db with
  | [] => check_budget_exceeded budget_id db = Raise TypeError
  | _ :: _ =>
      exists r, check_budget_exceeded budget_id db = Ok r /\
        (r = true <->
         (Budget.amount b < Qsum (map Transaction.amount (budget_rows b db)))%Q)
  end.
Proof.
  intros Hb.
  unfold check_budget_exceeded. rewrite Hb. simpl.
  destruct (budget_rows b db) as [|t rows] eqn:E.
  - reflexivity.
  - simpl map.
    destruct (func_sum_cons (Transaction.amount t) (map Transaction.amount rows))
      as [s [Hs Heq]].
    rewrite Hs. simpl.
    exists (Qgtb s (Budget.amount b)). split; [reflexivity|].
    rewrite Qgtb_true_iff, Heq. reflexivity.
Qed.

(** C6.  For an existing budget whose amount is zero,
    [get_budget_utilization] returns exactly 0 whatever the matching
    transactions are, none included. *)
Theorem utilization_of_zero_budget (b : Budget.t) :
  budget_by_id budget_id db = Some b ->
  (Budget.amount b == 0)%Q ->
  get_budget_utilization budget_id db = Ok 0%Q.
Proof.
  intros Hb Hz.
  unfold get_budget_utilization. rewrite Hb. simpl.
  destruct (Qgtb (Budget.amount b) 0) eqn:E; [|reflexivity].
  apply Qgtb_true_iff in E. rewrite Hz in E.
  exfalso. exact (Qlt_irrefl 0 E).
Qed.

(** With a positive amount the ratio is returned when some transaction
    matches, and [TypeError] is raised when none does. *)
Lemma utilization_of_positive_budget (b : Budget.t) :
  budget_by_id budget_id db = Some b ->
  (0 < Budget.amount b)%Q ->
  match budget_rows b db with
  | [] => get_budget_utilization budget_id db = Raise TypeError
  | _ :: _ =>
      exists s, get_budget_utilization budget_id db = Ok (s / Budget.amount b)%Q /\
        (s == Qsum (map Transaction.amount (budget_rows b db)))%Q
  end.
Proof.
  intros Hb Hpos.
  unfold get_budget_utilization. rewrite Hb. simpl.
  apply Qgtb_true_iff in Hpos. rewrite Hpos.
  destruct (budget_rows b db) as [|t rows] eqn:E.
  - reflexivity.
  - simpl map.
    destruct (func_sum_cons (Transaction.amount t) (map Transaction.amount rows))
      as [s [Hs Heq]].
    rewrite Hs. simpl. exists s. split; [reflexivity | exact Heq].
Qed.

(** The rows that the analytics sum are those of the budget's user and
    category, whatever their date. *)
Lemma budget_rows_In (b : Budget.t) (t : Transaction.t) :
  In t (budget_rows b db) <->
  In t (transactions db) /\
  Transaction.user_id t = Budget.user_id b /\
  Transaction.category t = Budget.category b.
Proof.
  unfold budget_rows. rewrite filter_In, andb_true_iff, opt_eqb_eq, String.eqb_eq.
  reflexivity.
Qed.

End BudgetAnalytics.

Lemma analytics_on_absent_budget_witness :
  (forall b, In b (budgets db_spent) -> Budget.id b <> 7) /\
  check_budget_exceeded 7 db_spent = Raise AttributeError /\
  get_budget_utilization 7 db_spent = Raise AttributeError /\
  is_not_found (check_budget_exceeded 7 db_spent) = false /\
  is_not_found (get_budget_utilization 7 db_spent) = false /\
  (forall d, is_not_found (fst (extend_budget 7 d db_spent)) = true).
Proof.
  assert (H : forall b, In b (budgets db_spent) -> Budget.id b <> 7).
  { intros b [<-|[<-|[]]]; simpl; discriminate. }
  split; [exact H|].
  exact (analytics_on_absent_budget_raise_attribute_error db_spent 7 H).
Defined.

Lemma check_budget_exceeded_witness :
  budget_by_id 1 db_fresh_budget =
    Some (Budget.mk 1 "groceries" 100 "food" (at_ 2024 1 1 0) (at_ 2024 12 31 0) (Some 1)) /\
  check_budget_exceeded 1 db_fresh_budget = Raise TypeError.
Proof.
  split; [reflexivity|].
  exact (check_budget_exceeded_spec db_fresh_budget 1 _ eq_refl).
Defined.

Lemma utilization_of_zero_budget_witness :
  budget_by_id 2 db_spent =
    Some (Budget.mk 2 "free" 0 "fun" (at_ 2024 1 1 0) (at_ 2024 12 31 0) (Some 1)) /\
  (0 == 0)%Q /\
  get_budget_utilization 2 db_spent = Ok 0%Q.
Proof.
  split; [reflexivity|]. split; [reflexivity|].
  exact (utilization_of_zero_budget db_spent 2 _ eq_refl (Qeq_refl 0)).
Defined.

(* ------------------------------------------------------------------ *)
(** ** Transactions: listings and totals *)

Section TransactionQueries.

Variable db : Db.

Lemma user_rows_In (user_id : Z) (t : Transaction.t) :
  In t (user_rows user_id db) <->
  In t (transactions db) /\ Transaction.user_id t = Some user_id.
Proof. unfold user_rows. rewrite filter_In, opt_eqb_eq. reflexivity. Qed.

(** C7.  [get_total_spent] returns the sum of the amounts of the user's
    transactions when there is at least one, and the null value (no
    error) when there is none. *)
Theorem get_total_spent_spec (user_id : Z) :
  match user_rows user_id db with
  | [] => get_total_spent user_id db = None
  | _ :: _ =>
      exists s, get_total_spent user_id db = Some s /\
                (s == Qsum (map Transaction.amount (user_rows user_id db)))%Q
  end.
Proof.
  unfold get_total_spent. fold (user_rows user_id db).
  destruct (user_rows user_id db) as [|t rows].
  - reflexivity.
  - simpl map. apply func_sum_cons.
Qed.

Lemma datetime_compare_refl (a : Datetime.t) : Datetime.compare a a = Eq.
Proof.
  unfold Datetime.compare. rewrite !Z.compare_refl. reflexivity.
Qed.

Lemma datetime_leb_refl (a : Datetime.t) : Datetime.leb a a = true.
Proof. unfold Datetime.leb. rewrite datetime_compare_refl. reflexivity. Qed.

Lemma datetime_leb_le (a b : Datetime.t) : Datetime.leb a b = true <-> dt_le a b.
Proof.
  unfold Datetime.leb, dt_le.
  destruct (Datetime.compare a b); split; intros H; congruence.
Qed.

(** C9.  [filter_transactions_by_date] returns the transactions, of any
    user, whose date [t] satisfies [start_date <= t <= end_date]; both
    bounds are included, so a transaction dated exactly [start_date] or
    exactly [end_date] is returned (when [start_date <= end_date]). *)
Theorem filter_transactions_by_date_inclusive (start_date end_date : Datetime.t) :
  (forall t,
      In t (filter_transactions_by_date start_date end_date db) <->
      In t (transactions db) /\
      dt_le start_date (Transaction.date t) /\
      dt_le (Transaction.date t) end_date) /\
  (forall t,
      In t (transactions db) -> dt_le start_date end_date ->
      Transaction.date t = start_date \/ Transaction.date t = end_date ->
      In t (filter_transactions_by_date start_date end_date db)).
Proof.
  assert (Hin : forall t,
      In t (filter_transactions_by_date start_date end_date db) <->
      In t (transactions db) /\
      dt_le start_date (Transaction.date t) /\
      dt_le (Transaction.date t) end_date).
  { intros t. unfold filter_transactions_by_date.
    rewrite filter_In, andb_true_iff, !datetime_leb_le. reflexivity. }
  split; [exact Hin|].
  intros t Ht Hse [Hd|Hd]; apply Hin; rewrite Hd.
  - split; [exact Ht|]. split; [|exact Hse].
    apply datetime_leb_le, datetime_leb_refl.
  - split; [exact Ht|]. split; [exact Hse|].
    apply datetime_leb_le, datetime_leb_refl.
Qed.

Lemma filter_transactions_by_category_In (category : string) (t : Transaction.t) :
  In t (filter_transactions_by_category category db) <->
  In t (transactions db) /\ Transaction.category t = category.
Proof.
  unfold filter_transactions_by_category.
  rewrite filter_In, String.eqb_eq. reflexivity.
Qed.

(** C10.  The count of [get_transactions_count_by_category] is the length
    of the list that [filter_transactions_by_category] returns for the
    same category on the same state. *)
Theorem count_by_category_is_length_of_listing (category : string) :
  get_transactions_count_by_category category db =
  Z.of_nat (List.length (filter_transactions_by_category category db)).
Proof.
  unfold get_transactions_count_by_category, filter_transactions_by_category.
  apply count_length.
Qed.

End TransactionQueries.

(* ------------------------------------------------------------------ *)
(** ** Writers: [extend_budget] and [delete_user] *)

Section Writers.

Variable db : Db.

Lemma same_id_same_budget (l : list Budget.t) (b1 b2 : Budget.t) :
  NoDup (map Budget.id l) ->
  In b1 l -> In b2 l -> Budget.id b1 = Budget.id b2 -> b1 = b2.
Proof.
  induction l as [|x l IH]; simpl; intros Hnd H1 H2 Hid; [destruct H1|].
  inversion Hnd as [|? ? Hx Hl]; subst.
  destruct H1 as [->|H1], H2 as [->|H2].
  - reflexivity.
  - exfalso. apply Hx. apply in_map_iff.
    exists b2. split; [symmetry; exact Hid | exact H2].
  - exfalso. apply Hx. apply in_map_iff.
    exists b1. split; [exact Hid | exact H1].
  - exact (IH Hl H1 H2 Hid).
Qed.

(** C5.  [extend_budget] on a budget id that no stored budget carries
    answers 404 and leaves the three tables as they were.  On the id of a
    stored budget it answers with a stored budget of that id carrying
    [new_end_date] (the budget itself when ids are distinct, as the
    primary key makes them) and stores [new_end_date] as the end date of
    the budget, whatever that date is: nothing relates it to the start
    date or to the former end date.  Every other field of the budget and
    every other row are untouched. *)
Theorem extend_budget_spec (budget_id : Z) (new_end_date : Datetime.t) :
  ((forall b, In b (budgets db) -> Budget.id b <> budget_id) ->
   extend_budget budget_id new_end_date db =
   (Raise (HTTPException 404 "Budget not found"), db)) /\
  (forall b, In b (budgets db) -> Budget.id b = budget_id ->
     let db' := snd (extend_budget budget_id new_end_date db) in
     (exists b0, In b0 (budgets db) /\ Budget.id b0 = budget_id /\
                 fst (extend_budget budget_id new_end_date db) =
                 Ok (set_end_date b0 new_end_date)) /\
     (NoDup (map Budget.id (budgets db)) ->
      fst (extend_budget budget_id new_end_date db) =
      Ok (set_end_date b new_end_date)) /\
     In (set_end_date b new_end_date) (budgets db') /\
     Budget.end_date (set_end_date b new_end_date) = new_end_date /\
     users db' = users db /\
     transactions db' = transactions db /\
     Forall2 (fun old new =>
                if Budget.id old =? budget_id
                then Budget.end_date new = new_end_date /\
                     Budget.id new = Budget.id old /\
                     Budget.name new = Budget.name old /\
                     Budget.amount new = Budget.amount old /\
                     Budget.category new = Budget.category old /\
                     Budget.start_date new = Budget.start_date old /\
                     Budget.user_id new = Budget.user_id old
                else new = old)
             (budgets db) (budgets db')).
Proof.
  split.
  - intros Habs. apply lookup_none_iff in Habs.
    unfold extend_budget. rewrite Habs. reflexivity.
  - intros b Hin Hid. simpl.
    destruct (budget_by_id budget_id db) as [b0|] eqn:E.
    + destruct (lookup_some db budget_id b0 E) as [Hin0 Hid0].
      unfold extend_budget. rewrite E. simpl. rewrite Hid0.
      split; [exists b0; repeat split; assumption|].
      split.
      { intros Hnd. f_equal. f_equal.
        apply (same_id_same_budget (budgets db)); try assumption.
        congruence. }
      split.
      { apply in_map_iff. exists b. split; [|exact Hin].
        assert (Ht : (Budget.id b =? budget_id) = true)
          by (apply Z.eqb_eq; exact Hid).
        rewrite Ht. reflexivity. }
      split; [reflexivity|]. split; [reflexivity|]. split; [reflexivity|].
      clear E Hin Hin0.
      induction (budgets db) as [|x l IH]; simpl; constructor.
      * destruct (Budget.id x =? budget_id); simpl; repeat split.
      * exact IH.
    + exfalso.
      exact (proj1 (lookup_none_iff db budget_id) E b Hin Hid).
Qed.

Lemma user_by_id_some (user_id : Z) (u : User.t) :
  user_by_id user_id db = Some u -> In u (users db) /\ User.id u = user_id.
Proof.
  unfold user_by_id. intros H.
  assert (Hf : In u (filter (fun u => User.id u =? user_id) (users db))).
  { destruct (filter (fun u => User.id u =? user_id) (users db));
      [discriminate | injection H as ->; left; reflexivity]. }
  apply filter_In in Hf. destruct Hf as [Hin Hid].
  split; [exact Hin | apply Z.eqb_eq; exact Hid].
Qed.

Lemma user_by_id_none (user_id : Z) :
  user_by_id user_id db = None <->
  forall u, In u (users db) -> User.id u <> user_id.
Proof.
  unfold user_by_id. split.
  - intros H u Hin Hid.
    assert (Hf : In u (filter (fun u => User.id u =? user_id) (users db))).
    { apply filter_In. split; [exact Hin | apply Z.eqb_eq; exact Hid]. }
    destruct (filter (fun u => User.id u =? user_id) (users db));
      [contradiction | discriminate].
  - intros H.
    destruct (filter (fun u => User.id u =? user_id) (users db)) as [|u l] eqn:E;
      [reflexivity|].
    assert (Hf : In u (filter (fun u => User.id u =? user_id) (users db))).
    { rewrite E. left. reflexivity. }
    apply filter_In in Hf. destruct Hf as [Hin Hid].
    apply Z.eqb_eq in Hid. exfalso. exact (H u Hin Hid).
Qed.

(** C4, as the code has it.  [delete_user] on an id that no user carries
    answers 404 and leaves the three tables as they were.  On an existing
    id it removes the user's row and keeps every transaction and budget
    row, with all its fields but [user_id]: the [user_id] of a row that
    referenced the deleted user becomes null, the [user_id] of any other
    row is kept.  No row references the deleted id afterwards. *)
Theorem delete_user_detaches_children (user_id : Z) :
  match user_by_id user_id db with
  | None =>
      delete_user user_id db = (Raise (HTTPException 404 "User not found"), db)
  | Some _ =>
      let db' := snd (delete_user user_id db) in
      fst (delete_user user_id db) = Ok "User deleted" /\
      (forall u, In u (users db') <-> In u (users db) /\ User.id u <> user_id) /\
      Forall2 (fun old new =>
                 Transaction.id new = Transaction.id old /\
                 Transaction.description new = Transaction.description old /\
                 Transaction.amount new = Transaction.amount old /\
                 Transaction.date new = Transaction.date old /\
                 Transaction.category new = Transaction.category old /\
                 Transaction.user_id new =
                   (if opt_eqb (Transaction.user_id old) (Some user_id)
                    then None else Transaction.user_id old))
              (transactions db) (transactions db') /\
      Forall2 (fun old new =>
                 Budget.id new = Budget.id old /\
                 Budget.name new = Budget.name old /\
                 Budget.amount new = Budget.amount old /\
                 Budget.category new = Budget.category old /\
                 Budget.start_date new = Budget.start_date old /\
                 Budget.end_date new = Budget.end_date old /\
                 Budget.user_id new =
                   (if opt_eqb (Budget.user_id old) (Some user_id)
                    then None else Budget.user_id old))
              (budgets db) (budgets db') /\
      (forall t, In t (transactions db') -> Transaction.user_id t <> Some user_id) /\
      (forall b, In b (budgets db') -> Budget.user_id b <> Some user_id)
  end.
Proof.
  unfold delete_user.
  destruct (user_by_id user_id db) as [u|] eqn:E; [|reflexivity].
  apply user_by_id_some in E. destruct E as [_ Hid].
  simpl. rewrite Hid.
  split; [reflexivity|].
  split.
  { intros u'. rewrite filter_In, negb_true_iff, Z.eqb_neq. reflexivity. }
  split.
  { induction (transactions db) as [|x l IH]; simpl; constructor; [|exact IH].
    unfold detach_transaction.
    destruct (opt_eqb (Transaction.user_id x) (Some user_id)); simpl;
      repeat split. }
  split.
  { induction (budgets db) as [|x l IH]; simpl; constructor; [|exact IH].
    unfold detach_budget.
    destruct (opt_eqb (Budget.user_id x) (Some user_id)); simpl;
      repeat split. }
  split.
  - intros t Ht. apply in_map_iff in Ht. destruct Ht as [x [Hx _]].
    subst t. unfold detach_transaction.
    destruct (opt_eqb (Transaction.user_id x) (Some user_id)) eqn:Ex; simpl.
    + discriminate.
    + intros Hc. apply opt_eqb_eq in Hc. congruence.
  - intros b Hb. apply in_map_iff in Hb. destruct Hb as [x [Hx _]].
    subst b. unfold detach_budget.
    destruct (opt_eqb (Budget.user_id x) (Some user_id)) eqn:Ex; simpl.
    + discriminate.
    + intros Hc. apply opt_eqb_eq in Hc. congruence.
Qed.

End Writers.

Lemma extend_budget_spec_witness :
  let d := at_ 2023 6 1 0 in
  let groceries :=
    Budget.mk 1 "groceries" 100 "food" (at_ 2024 1 1 0) (at_ 2024 12 31 0) (Some 1) in
  extend_budget 7 d db_spent =
    (Raise (HTTPException 404 "Budget not found"), db_spent) /\
  fst (extend_budget 1 d db_spent) = Ok (set_end_date groceries d) /\
  In (set_end_date groceries d) (budgets (snd (extend_budget 1 d db_spent))) /\
  Datetime.ltb d (Budget.start_date groceries) = true.
Proof.
  simpl.
  destruct (extend_budget_spec db_spent 7 (at_ 2023 6 1 0)) as [Habs _].
  destruct (extend_budget_spec db_spent 1 (at_ 2023 6 1 0)) as [_ Hex].
  specialize (Hex (Budget.mk 1 "groceries" 100 "food"
                     (at_ 2024 1 1 0) (at_ 2024 12 31 0) (Some 1))
                  (or_introl eq_refl) eq_refl).
  destruct Hex as [_ [Hfst [Hin _]]].
  split.
  - apply Habs. intros b [<-|[<-|[]]]; simpl; discriminate.
  - split; [|split; [exact Hin | reflexivity]].
    apply Hfst. simpl. repeat constructor; simpl; intuition discriminate.
Defined.

(** C4, as the claim words it, fails: after [delete_user 1] on a state
    where the three transactions and the two budgets belong to user 1, no
    child row carries the reference 1 any more; the child rows are not
    left as they were. *)
Lemma delete_user_leaves_no_dangling_reference :
  let db' := snd (delete_user 1 db_spent) in
  fst (delete_user 1 db_spent) = Ok "User deleted" /\
  map Transaction.user_id (transactions db_spent) = [Some 1; Some 1; Some 1] /\
  map Transaction.user_id (transactions db') = [None; None; None] /\
  map Budget.user_id (budgets db_spent) = [Some 1; Some 1] /\
  map Budget.user_id (budgets db') = [None; None] /\
  ~ (transactions db' = transactions db_spent /\ budgets db' = budgets db_spent).
Proof.
  simpl. repeat split.
  intros [H _]. discriminate H.
Qed.

(* ------------------------------------------------------------------ *)
(** ** The monthly report *)

Section MonthlyReport.

Import Datetime.

Lemma days_in_month_cases (y m : Z) :
  days_in_month y m = 28 \/ days_in_month y m = 29 \/
  days_in_month y m = 30 \/ days_in_month y m = 31.
Proof.
  unfold days_in_month.
  destruct (m =? 2); [destruct (is_leap y); auto|].
  destruct ((m =? 4) || (m =? 6) || (m =? 9) || (m =? 11)); auto.
Qed.

Lemma add_days_app (n m : nat) :
  forall d, add_days (n + m) d = (d' <- add_days n d ;; add_days m d').
Proof.
  induction n as [|n IH]; intros d; simpl.
  - reflexivity.
  - destruct (next_day d) as [d1|e]; simpl; [apply IH | reflexivity].
Qed.

Lemma add_days_within (n : nat) :
  forall d,
    day d + Z.of_nat n <= days_in_month (year d) (month d) ->
    add_days n d = Ok (set_day d (day d + Z.of_nat n)).
Proof.
  induction n as [|n IH]; intros d H.
  - simpl. unfold set_day. rewrite Z.add_0_r. destruct d; reflexivity.
  - simpl add_days. unfold next_day.
    assert (Hlt : (day d <? days_in_month (year d) (month d)) = true)
      by (apply Z.ltb_lt; lia).
    rewrite Hlt. simpl bind.
    rewrite IH by (simpl; lia).
    unfold set_day. simpl. f_equal. f_equal. lia.
Qed.

Lemma next_day_rolls (d : Datetime.t) :
  day d = days_in_month (year d) (month d) ->
  1 <= month d <= 12 ->
  month d < 12 \/ year d < MAXYEAR ->
  next_day d = Ok (next_month_first d).
Proof.
  intros Hd Hm Hy. unfold next_day, next_month_first.
  assert (H1 : (day d <? days_in_month (year d) (month d)) = false)
    by (apply Z.ltb_ge; lia).
  rewrite H1.
  destruct (Z.eq_dec (month d) 12) as [E|E].
  - rewrite E. simpl.
    assert (H2 : (year d <? MAXYEAR) = true) by (apply Z.ltb_lt; lia).
    rewrite H2. reflexivity.
  - assert (H2 : (month d <? 12) = true) by (apply Z.ltb_lt; lia).
    assert (H3 : (month d =? 12) = false) by (apply Z.eqb_neq; exact E).
    rewrite H2, H3. reflexivity.
Qed.

Lemma next_day_overflows (d : Datetime.t) :
  day d = days_in_month (year d) (month d) ->
  month d = 12 -> MAXYEAR <= year d ->
  next_day d = Raise OverflowError.
Proof.
  intros Hd Hm Hy. unfold next_day.
  assert (H1 : (day d <? days_in_month (year d) (month d)) = false)
    by (apply Z.ltb_ge; lia).
  assert (H2 : (year d <? MAXYEAR) = false) by (apply Z.ltb_ge; lia).
  rewrite H1, Hm, H2. reflexivity.
Qed.

(** Thirty-one days after the first of a month is a day of the next
    month, between the 1st and the 4th. *)
Lemma add_31_days_from_first (d : Datetime.t) :
  day d = 1 ->
  1 <= month d <= 12 ->
  month d < 12 \/ year d < MAXYEAR ->
  exists k, 1 <= k <= 4 /\
            add_days 31 d = Ok (set_day (next_month_first d) k).
Proof.
  intros Hd Hm Hy.
  pose (D := days_in_month (year d) (month d)).
  assert (HD : D = 28 \/ D = 29 \/ D = 30 \/ D = 31)
    by apply days_in_month_cases.
  assert (Hroll : forall n,
             Z.of_nat n = D - 1 ->
             (d' <- add_days n d ;; next_day d') = Ok (next_month_first d)).
  { intros n Hn. rewrite add_days_within by (fold D; lia).
    simpl bind. rewrite next_day_rolls.
    - unfold next_month_first, set_day. simpl. reflexivity.
    - unfold set_day. simpl. fold D. lia.
    - exact Hm.
    - exact Hy. }
  assert (Hrest : forall n,
             (Z.of_nat n <= 3)%Z ->
             add_days n (next_month_first d) =
             Ok (set_day (next_month_first d) (1 + Z.of_nat n))).
  { intros n Hn.
    assert (Hday : day (next_month_first d) = 1)
      by (unfold next_month_first; destruct (month d =? 12); reflexivity).
    rewrite add_days_within.
    - rewrite Hday. reflexivity.
    - rewrite Hday.
      destruct (days_in_month_cases (year (next_month_first d))
                                    (month (next_month_first d)))
        as [H|[H|[H|H]]]; rewrite H; lia. }
  assert (Hsplit : forall n m, (31 = n + 1 + m)%nat ->
             Z.of_nat n = D - 1 ->
             add_days 31 d = add_days m (next_month_first d)).
  { intros n m E Hn. rewrite E.
    rewrite add_days_app.
    rewrite add_days_app.
    destruct (add_days n d) as [d1|e] eqn:E1.
    - simpl bind. specialize (Hroll n Hn). rewrite E1 in Hroll.
      simpl bind in Hroll. simpl add_days at 1.
      destruct (next_day d1) as [d2|e2]; simpl bind; simpl in Hroll.
      + injection Hroll as ->. reflexivity.
      + discriminate.
    - specialize (Hroll n Hn). rewrite E1 in Hroll. discriminate. }
  destruct HD as [H|[H|[H|H]]].
  - exists 4. split; [lia|].
    rewrite (Hsplit 27%nat 3%nat) by (try reflexivity; lia).
    rewrite Hrest by (simpl; lia). reflexivity.
  - exists 3. split; [lia|].
    rewrite (Hsplit 28%nat 2%nat) by (try reflexivity; lia).
    rewrite Hrest by (simpl; lia). reflexivity.
  - exists 2. split; [lia|].
    rewrite (Hsplit 29%nat 1%nat) by (try reflexivity; lia).
    rewrite Hrest by (simpl; lia). reflexivity.
  - exists 1. split; [lia|].
    rewrite (Hsplit 30%nat 0%nat) by (try reflexivity; lia).
    rewrite Hrest by (simpl; lia). reflexivity.
Qed.

Lemma replace_day_first (d : Datetime.t) :
  replace_day d 1 = Ok (set_day d 1).
Proof.
  unfold replace_day.
  assert (H : (1 <=? 1) && (1 <=? days_in_month (year d) (month d)) = true).
  { apply andb_true_iff. split; [reflexivity|].
    apply Z.leb_le.
    destruct (days_in_month_cases (year d) (month d)) as [H|[H|[H|H]]];
      rewrite H; lia. }
  rewrite H. reflexivity.
Qed.

(** X24.  What the handler computes for any [now] whose month is not the last
    one representable: the sum over the user's transactions dated from
    the first day of the month at the time of day of [now] (included) to
    the first day of the next month at that same time of day
    (excluded); null when there is none. *)
Lemma get_monthly_spending_report_window (user_id : Z) (now : Datetime.t) (db : Db) :
  1 <= month now <= 12 ->
  month now < 12 \/ year now < MAXYEAR ->
  get_monthly_spending_report user_id now db =
  Ok (func_sum
        (map Transaction.amount
           (filter (fun t => opt_eqb (Transaction.user_id t) (Some user_id)
                             && leb (window_start now) (Transaction.date t)
                             && ltb (Transaction.date t) (window_end now))
                   (transactions db)))).
Proof.
  intros Hm Hy. unfold get_monthly_spending_report.
  rewrite replace_day_first, bind_ok.
  destruct (add_31_days_from_first (set_day now 1)) as [k [Hk E]];
    try (unfold set_day; simpl; assumption); [reflexivity|].
  rewrite E, bind_ok, replace_day_first, bind_ok.
  replace (set_day (set_day (next_month_first (set_day now 1)) k) 1)
    with (window_end now)
    by (unfold window_end, next_month_first, set_day; simpl;
        destruct (month now =? 12); reflexivity).
  fold (window_start now).
  reflexivity.
Qed.

(** X25.  In December of the last representable year the handler raises
    [OverflowError]: the thirty-one days lead past the last date. *)
Lemma get_monthly_spending_report_overflow (user_id : Z) (now : Datetime.t) (db : Db) :
  month now = 12 -> MAXYEAR <= year now ->
  get_monthly_spending_report user_id now db = Raise OverflowError.
Proof.
  intros Hm Hy. unfold get_monthly_spending_report.
  rewrite replace_day_first, bind_ok.
  assert (Hdim : days_in_month (year now) (month now) = 31)
    by (rewrite Hm; reflexivity).
  change 31%nat with (30 + 1)%nat.
  rewrite add_days_app, add_days_within
    by (unfold set_day; simpl; rewrite Hdim; lia).
  rewrite bind_ok. simpl add_days.
  rewrite next_day_overflows; [reflexivity | | |];
    unfold set_day; simpl; [rewrite Hdim; reflexivity | exact Hm | exact Hy].
Qed.

End MonthlyReport.

(** C3 fails on the code.  With [now] the 15th of March 2024 at noon, the
    user has 60 on the 1st of March at 9:00, 50 on the 20th of March and 5
    on the 1st of April at 9:00.  The calendar month of March holds the
    first two (110); the handler leaves out the first, which is earlier
    in the day than [now] on the 1st, takes in the third, and answers 55. *)
Theorem monthly_report_is_not_the_calendar_month :
  let now := Datetime.mk 2024 3 15 12 0 0 0 in
  get_monthly_spending_report 1 now db_spent = Ok (Some 55%Q) /\
  map Transaction.id (spec_monthly_rows 1 now db_spent) = [1; 2] /\
  func_sum (map Transaction.amount (spec_monthly_rows 1 now db_spent)) = Some 110%Q.
Proof. vm_compute. repeat split. Qed.

(** When [now] is the very first instant of a day the two windows agree. *)
Lemma window_at_midnight (now : Datetime.t) :
  Datetime.hour now = 0 -> Datetime.minute now = 0 ->
  Datetime.second now = 0 -> Datetime.microsecond now = 0 ->
  window_start now = spec_month_start now /\ window_end now = spec_month_end now.
Proof.
  intros Hh Hm Hs Hu.
  unfold window_start, window_end, set_day, next_month_first,
    spec_month_start, spec_month_end.
  rewrite Hh, Hm, Hs, Hu. split; reflexivity.
Qed.

(* ------------------------------------------------------------------ *)
(** ** The highest spending category *)

Section Highest.

Lemma Qsum_app (l1 l2 : list Q) : (Qsum (l1 ++ l2) == Qsum l1 + Qsum l2)%Q.
Proof.
  induction l1 as [|x l1 IH]; simpl.
  - ring.
  - rewrite IH. ring.
Qed.

Lemma category_total_snoc (c : string) (rows : list Transaction.t) (t : Transaction.t) :
  (category_total c (rows ++ [t]) ==
   category_total c rows +
   (if String.eqb (Transaction.category t) c then Transaction.amount t else 0))%Q.
Proof.
  unfold category_total. rewrite filter_app, map_app, Qsum_app. simpl.
  destruct (String.eqb (Transaction.category t) c); simpl; ring.
Qed.

Lemma category_total_absent (c : string) (rows : list Transaction.t) :
  ~ In c (map Transaction.category rows) -> category_total c rows = 0%Q.
Proof.
  intros H. unfold category_total.
  replace (filter (fun t => String.eqb (Transaction.category t) c) rows)
    with (@nil Transaction.t); [reflexivity|].
  symmetry. induction rows as [|t rows IH]; simpl; [reflexivity|].
  destruct (String.eqb (Transaction.category t) c) eqn:E.
  - apply String.eqb_eq in E. exfalso. apply H. left. exact E.
  - apply IH. intros Hin. apply H. right. exact Hin.
Qed.

Lemma add_to_group_keys (c : string) (x : Q) (gs : list (string * Q)) :
  (In c (map fst gs) /\ map fst (add_to_group c x gs) = map fst gs) \/
  (~ In c (map fst gs) /\ map fst (add_to_group c x gs) = map fst gs ++ [c]).
Proof.
  induction gs as [|[c' s] gs IH]; simpl.
  - right. split; [tauto | reflexivity].
  - destruct (String.eqb c' c) eqn:E.
    + apply String.eqb_eq in E. left. split; [left; exact E | reflexivity].
    + apply String.eqb_neq in E.
      destruct IH as [[Hin Hk]|[Hnin Hk]]; simpl; rewrite Hk.
      * left. split; [right; exact Hin | reflexivity].
      * right. split; [intros [H|H]; [exact (E H) | exact (Hnin H)] | reflexivity].
Qed.

Lemma add_to_group_NoDup (c : string) (x : Q) (gs : list (string * Q)) :
  NoDup (map fst gs) -> NoDup (map fst (add_to_group c x gs)).
Proof.
  intros H.
  destruct (add_to_group_keys c x gs) as [[_ Hk]|[Hnin Hk]]; rewrite Hk.
  - exact H.
  - apply NoDup_app.
    + exact H.
    + constructor; [intros [] | constructor].
    + intros k Hk1 [Hk2|[]]. subst k. exact (Hnin Hk1).
Qed.

Lemma in_add_to_group (c : string) (x : Q) (gs : list (string * Q)) :
  NoDup (map fst gs) ->
  forall c' s', In (c', s') (add_to_group c x gs) ->
    (c' <> c /\ In (c', s') gs) \/
    (c' = c /\ ((exists s, In (c, s) gs /\ s' = (s + x)%Q) \/
                (~ In c (map fst gs) /\ s' = x))).
Proof.
  induction gs as [|[k s] gs IH]; simpl; intros Hnd c' s' Hin.
  - destruct Hin as [Hin|[]]. injection Hin as <- <-.
    right. split; [reflexivity|]. right. split; [tauto | reflexivity].
  - inversion Hnd as [|? ? Hk Hnd']; subst.
    destruct (String.eqb k c) eqn:E.
    + apply String.eqb_eq in E. subst k.
      destruct Hin as [Hin|Hin].
      * injection Hin as <- <-. right. split; [reflexivity|].
        left. exists s. split; [left; reflexivity | reflexivity].
      * left. split; [|right; exact Hin].
        intros ->. apply Hk. apply in_map_iff.
        exists (c, s'). split; [reflexivity | exact Hin].
    + apply String.eqb_neq in E.
      destruct Hin as [Hin|Hin].
      * injection Hin as <- <-. left. split; [exact E | left; reflexivity].
      * destruct (IH Hnd' c' s' Hin) as [[Hne H]|[-> [[s0 [H ->]]|[Hnin ->]]]].
        -- left. split; [exact Hne | right; exact H].
        -- right. split; [reflexivity|]. left.
           exists s0. split; [right; exact H | reflexivity].
        -- right. split; [reflexivity|]. right.
           split; [|reflexivity].
           intros [H|H]; [exact (E H) | exact (Hnin H)].
Qed.

Lemma groups_of_step (rows : list Transaction.t) (gs : list (string * Q))
      (t : Transaction.t) :
  groups_of rows gs ->
  groups_of (rows ++ [t])
    (add_to_group (Transaction.category t) (Transaction.amount t) gs).
Proof.
  intros [Hnd [Hval Hkeys]].
  split; [apply add_to_group_NoDup; exact Hnd|]. split.
  - intros c s Hin.
    rewrite map_app, in_app_iff, category_total_snoc. simpl.
    destruct (in_add_to_group _ _ _ Hnd _ _ Hin)
      as [[Hne H]|[-> [[s0 [H ->]]|[Hnin ->]]]].
    + destruct (Hval _ _ H) as [Hc Hs].
      split; [left; exact Hc|].
      assert (E : String.eqb (Transaction.category t) c = false)
        by (apply String.eqb_neq; congruence).
      rewrite E, Hs. ring.
    + destruct (Hval _ _ H) as [Hc Hs].
      split; [left; exact Hc|].
      rewrite String.eqb_refl, Hs. ring.
    + split; [right; left; reflexivity|].
      rewrite String.eqb_refl, category_total_absent.
      * ring.
      * intros Hc. exact (Hnin (Hkeys _ Hc)).
  - intros c Hc. rewrite map_app, in_app_iff in Hc. simpl in Hc.
    destruct (add_to_group_keys (Transaction.category t) (Transaction.amount t) gs)
      as [[Hin Hk]|[Hnin Hk]]; rewrite Hk.
    + destruct Hc as [Hc|[<-|[]]]; [exact (Hkeys _ Hc) | exact Hin].
    + apply in_app_iff.
      destruct Hc as [Hc|[<-|[]]]; [left; exact (Hkeys _ Hc) | right; left; reflexivity].
Qed.

Lemma groups_of_fold (rows : list Transaction.t) :
  forall seen gs,
    groups_of seen gs ->
    groups_of (seen ++ rows)
      (fold_left
         (fun gs t => add_to_group (Transaction.category t) (Transaction.amount t) gs)
         rows gs).
Proof.
  induction rows as [|t rows IH]; intros seen gs H; simpl.
  - rewrite app_nil_r. exact H.
  - replace (seen ++ t :: rows) with ((seen ++ [t]) ++ rows)
      by (rewrite <- app_assoc; reflexivity).
    apply IH, groups_of_step, H.
Qed.

Lemma group_by_sum_spec (rows : list Transaction.t) :
  groups_of rows (group_by_sum rows).
Proof.
  unfold group_by_sum.
  apply (groups_of_fold rows [] []).
  split; [constructor|]. split; [intros c s [] | intros c []].
Qed.

Lemma first_insert_desc (r : string * Q) (l : list (string * Q)) :
  first (insert_desc r l) =
  match first l with
  | None => Some r
  | Some r' => if Qle_bool (snd r') (snd r) then Some r else Some r'
  end.
Proof.
  destruct l as [|r' l]; simpl; [reflexivity|].
  destruct (Qle_bool (snd r') (snd r)); reflexivity.
Qed.

Lemma first_order_by_desc (l : list (string * Q)) :
  match l with
  | [] => first (order_by_desc l) = None
  | _ :: _ =>
      exists r, first (order_by_desc l) = Some r /\ In r l /\
                forall r', In r' l -> (snd r' <= snd r)%Q
  end.
Proof.
  induction l as [|a l IH]; [reflexivity|].
  simpl order_by_desc. rewrite first_insert_desc.
  destruct l as [|b l].
  - simpl. exists a. split; [reflexivity|]. split; [left; reflexivity|].
    intros r' [<-|[]]. apply Qle_refl.
  - destruct IH as [r [Hr [Hin Hmax]]]. rewrite Hr.
    destruct (Qle_bool (snd r) (snd a)) eqn:E.
    + apply Qle_bool_iff in E.
      exists a. split; [reflexivity|]. split; [left; reflexivity|].
      intros r' [<-|H]; [apply Qle_refl|].
      apply Qle_trans with (snd r); [apply Hmax; exact H | exact E].
    + exists r. split; [reflexivity|]. split; [right; exact Hin|].
      intros r' [<-|H]; [|apply Hmax; exact H].
      apply Qlt_le_weak, Qnot_le_lt. intros Hle.
      apply Qle_bool_iff in Hle. congruence.
Qed.

(** C8.  With at least one transaction, [get_highest_spending_category]
    returns a category of some transaction together with the sum of the
    amounts of that category, and no category has a larger sum; over the
    transactions A:30, B:50, A:10 it returns B with 50.  With no
    transaction it raises [TypeError] (it subscripts [None]), which
    nothing handles. *)
Theorem get_highest_spending_category_spec (db : Db) :
  match transactions db with
  | [] => get_highest_spending_category db = Raise TypeError
  | _ :: _ =>
      exists c total,
        get_highest_spending_category db = Ok (c, total) /\
        In c (map Transaction.category (transactions db)) /\
        (total == category_total c (transactions db))%Q /\
        forall c', In c' (map Transaction.category (transactions db)) ->
                   (category_total c' (transactions db) <= total)%Q
  end /\
  get_highest_spending_category db_abc = Ok ("B", 50%Q).
Proof.
  split; [|reflexivity].
  unfold get_highest_spending_category.
  destruct (group_by_sum_spec (transactions db)) as [Hnd [Hval Hkeys]].
  pose proof (first_order_by_desc (group_by_sum (transactions db))) as Hfirst.
  destruct (transactions db) as [|t rows] eqn:Erows; [reflexivity|].
  destruct (group_by_sum (t :: rows)) as [|g gs] eqn:Eg.
  - exfalso. apply (Hkeys (Transaction.category t)). left. reflexivity.
  - destruct Hfirst as [[c total] [Hr [Hin Hmax]]].
    rewrite Hr. simpl fst. simpl snd.
    destruct (Hval _ _ Hin) as [Hc Hs].
    exists c, total. split; [reflexivity|]. split; [exact Hc|].
    split; [exact Hs|].
    intros c' Hc'.
    apply Hkeys in Hc'. apply in_map_iff in Hc'.
    destruct Hc' as [[k s] [Hk Hks]]. simpl in Hk. subst k.
    destruct (Hval _ _ Hks) as [_ Hs'].
    rewrite <- Hs'. exact (Hmax _ Hks).
Qed.

End Highest.

(* ------------------------------------------------------------------ *)
(** ** The user repository *)

Section UserRepository.

Lemma filter_none {A : Type} (p : A -> bool) (l : list A) :
  (forall x, In x l -> p x = false) -> filter p l = [].
Proof.
  induction l as [|x l IH]; intros H; simpl; [reflexivity|].
  rewrite (H x) by (left; reflexivity).
  apply IH. intros y Hy. apply H. right. exact Hy.
Qed.

Lemma filter_all {A : Type} (p : A -> bool) (l : list A) :
  (forall x, In x l -> p x = true) -> filter p l = l.
Proof.
  induction l as [|x l IH]; intros H; simpl; [reflexivity|].
  rewrite (H x) by (left; reflexivity).
  f_equal. apply IH. intros y Hy. apply H. right. exact Hy.
Qed.

Lemma email_taken_false (email : string) (rows : list User.t) :
  email_taken email rows = false <->
  forall u, In u rows -> User.email u <> email.
Proof.
  unfold email_taken. split.
  - intros H u Hin He.
    assert (Ht : existsb (fun u => String.eqb (User.email u) email) rows = true).
    { apply existsb_exists. exists u. split; [exact Hin | apply String.eqb_eq; exact He]. }
    congruence.
  - intros H.
    destruct (existsb (fun u => String.eqb (User.email u) email) rows) eqn:E;
      [|reflexivity].
    apply existsb_exists in E. destruct E as [u [Hin He]].
    apply String.eqb_eq in He. exfalso. exact (H u Hin He).
Qed.

Lemma user_by_id_absent (user_id : Z) (db : Db) :
  (forall u, In u (users db) -> User.id u <> user_id) ->
  filter (fun u => User.id u =? user_id) (users db) = [].
Proof.
  intros H. apply filter_none. intros u Hu.
  apply Z.eqb_neq. exact (H u Hu).
Qed.

(** X1.  Creating a user whose email no stored user has, under an id that
    no stored user has, returns the user with the name and email of the
    request; [get_user] on the new id then returns that same user, and
    [filter_users_by_email] on the email lists it. *)
Theorem create_user_then_get_user (new_id : Z) (user : UserCreate.t) (db : Db) :
  (forall u, In u (users db) -> User.id u <> new_id) ->
  (forall u, In u (users db) -> User.email u <> UserCreate.email user) ->
  let created := User.mk new_id (UserCreate.name user) (UserCreate.email user) in
  let db' := snd (create_user new_id user db) in
  fst (create_user new_id user db) = Returned created /\
  get_user new_id db' = Ok created /\
  In created (filter_users_by_email (UserCreate.email user) db').
Proof.
  intros Hid Hemail. simpl.
  unfold create_user. simpl.
  apply email_taken_false in Hemail. rewrite Hemail. simpl.
  split; [reflexivity|]. split.
  - unfold get_user, user_by_id. simpl.
    rewrite filter_app, (user_by_id_absent new_id db Hid). simpl.
    rewrite Z.eqb_refl. reflexivity.
  - unfold filter_users_by_email. simpl.
    apply filter_In. split.
    + apply in_or_app. right. left. reflexivity.
    + simpl. apply String.eqb_refl.
Qed.

(** X2.  Creating a user whose email a stored user already has fails with
    [IntegrityError] and stores nothing. *)
Theorem create_user_duplicate_email (new_id : Z) (user : UserCreate.t) (db : Db) :
  (exists u, In u (users db) /\ User.email u = UserCreate.email user) ->
  create_user new_id user db = (Failed (IntegrityError "users.email"), db).
Proof.
  intros [u [Hin He]]. unfold create_user. simpl.
  assert (Ht : email_taken (UserCreate.email user) (users db) = true).
  { unfold email_taken. apply existsb_exists.
    exists u. split; [exact Hin | apply String.eqb_eq; exact He]. }
  rewrite Ht. reflexivity.
Qed.

(** X3.  [create_user] touches no other user and no transaction or budget:
    whether it succeeds or not, [get_user] on any other id answers as
    before and the two other tables are as they were. *)
Theorem create_user_frame (new_id : Z) (user : UserCreate.t) (db : Db) (other : Z) :
  other <> new_id ->
  let db' := snd (create_user new_id user db) in
  get_user other db' = get_user other db /\
  transactions db' = transactions db /\
  budgets db' = budgets db.
Proof.
  intros Hne. simpl. unfold create_user. simpl.
  destruct (email_taken (UserCreate.email user) (users db)); simpl.
  - repeat split.
  - split; [|split; reflexivity].
    unfold get_user, user_by_id. simpl.
    rewrite filter_app. simpl.
    assert (E : (new_id =? other) = false) by (apply Z.eqb_neq; congruence).
    rewrite E, app_nil_r. reflexivity.
Qed.

Lemma filter_after_remove (user_id : Z) (l : list User.t) :
  filter (fun u => User.id u =? user_id)
         (filter (fun u => negb (User.id u =? user_id)) l) = [].
Proof.
  apply filter_none. intros u Hu.
  apply filter_In in Hu. destruct Hu as [_ Hu].
  apply negb_true_iff in Hu. exact Hu.
Qed.

Lemma filter_other_after_remove (user_id other : Z) (l : list User.t) :
  other <> user_id ->
  filter (fun u => User.id u =? other)
         (filter (fun u => negb (User.id u =? user_id)) l) =
  filter (fun u => User.id u =? other) l.
Proof.
  intros Hne. induction l as [|u l IH]; simpl; [reflexivity|].
  destruct (User.id u =? user_id) eqn:E; simpl.
  - apply Z.eqb_eq in E.
    assert (E' : (User.id u =? other) = false) by (apply Z.eqb_neq; congruence).
    rewrite E'. exact IH.
  - destruct (User.id u =? other); [f_equal|]; exact IH.
Qed.

(** X4.  After [delete_user] on an id, [get_user] on that id answers 404,
    and so does a second [delete_user], which changes nothing more; this
    holds whether or not the id existed. *)
Theorem delete_user_then_not_found (user_id : Z) (db : Db) :
  let db' := snd (delete_user user_id db) in
  get_user user_id db' = Raise (HTTPException 404 "User not found") /\
  delete_user user_id db' = (Raise (HTTPException 404 "User not found"), db').
Proof.
  simpl.
  assert (H : user_by_id user_id (snd (delete_user user_id db)) = None).
  { unfold delete_user.
    destruct (user_by_id user_id db) as [u|] eqn:E; simpl; [|exact E].
    destruct (user_by_id_some db user_id u E) as [_ Hid].
    unfold user_by_id. simpl. rewrite Hid, filter_after_remove. reflexivity. }
  split.
  - unfold get_user. rewrite H. reflexivity.
  - unfold delete_user at 1. rewrite H. reflexivity.
Qed.

(** X5.  [delete_user] leaves the other users in place: [get_user] on any
    other id answers after the delete as it did before. *)
Theorem delete_user_keeps_other_users (user_id other : Z) (db : Db) :
  other <> user_id ->
  get_user other (snd (delete_user user_id db)) = get_user other db.
Proof.
  intros Hne. unfold delete_user.
  destruct (user_by_id user_id db) as [u|] eqn:E; simpl; [|reflexivity].
  destruct (user_by_id_some db user_id u E) as [_ Hid].
  unfold get_user, user_by_id. simpl.
  rewrite Hid, filter_other_after_remove by exact Hne. reflexivity.
Qed.

Lemma filter_map_same {A : Type} (p : A -> bool) (f : A -> A) (l : list A) :
  (forall x, p (f x) = p x) -> filter p (map f l) = map f (filter p l).
Proof.
  intros H. induction l as [|x l IH]; simpl; [reflexivity|].
  rewrite H. destruct (p x); simpl; [f_equal|]; exact IH.
Qed.

Lemma first_map {A : Type} (f : A -> A) (l : list A) :
  first (map f l) = option_map f (first l).
Proof. destruct l; reflexivity. Qed.

Lemma map_id_on {A : Type} (f : A -> A) (l : list A) :
  (forall x, In x l -> f x = x) -> map f l = l.
Proof.
  induction l as [|x l IH]; intros H; simpl; [reflexivity|].
  rewrite (H x) by (left; reflexivity).
  f_equal. apply IH. intros y Hy. apply H. right. exact Hy.
Qed.

Lemma set_fields_keeps_id (user_id : Z) (user : UserCreate.t) (u : User.t) :
  User.id (if User.id u =? user_id then set_fields user u else u) = User.id u.
Proof. destruct (User.id u =? user_id); reflexivity. Qed.

(** X6.  Updating an existing user with an email that no other user has
    stores the name and email of the request under the same id:
    [update_user] returns that user, [get_user] on the id returns it
    afterwards, [get_user] on any other id answers as before, and the
    transactions and budgets are as they were. *)
Theorem update_user_then_get_user (user_id : Z) (user : UserCreate.t) (db : Db)
        (u : User.t) :
  user_by_id user_id db = Some u ->
  (forall u', In u' (users db) -> User.id u' <> user_id ->
              User.email u' <> UserCreate.email user) ->
  let updated := User.mk user_id (UserCreate.name user) (UserCreate.email user) in
  let db' := snd (update_user user_id user db) in
  fst (update_user user_id user db) = Returned updated /\
  get_user user_id db' = Ok updated /\
  (forall other, other <> user_id -> get_user other db' = get_user other db) /\
  transactions db' = transactions db /\
  budgets db' = budgets db.
Proof.
  intros Hu Hfree. simpl.
  destruct (user_by_id_some db user_id u Hu) as [_ Hid].
  assert (Hnot : email_taken (UserCreate.email user)
                   (filter (fun u' => negb (User.id u' =? user_id)) (users db)) = false).
  { apply email_taken_false. intros u' Hin.
    apply filter_In in Hin. destruct Hin as [Hin Hne].
    apply negb_true_iff, Z.eqb_neq in Hne. exact (Hfree u' Hin Hne). }
  unfold update_user. rewrite Hu, Hid, Hnot. simpl.
  split; [unfold set_fields; rewrite Hid; reflexivity|].
  split; [|split; [|split; reflexivity]].
  - unfold get_user, user_by_id. simpl.
    rewrite filter_map_same
      by (intros x; rewrite set_fields_keeps_id; reflexivity).
    rewrite first_map. unfold user_by_id in Hu. rewrite Hu. simpl.
    assert (E : (User.id u =? user_id) = true) by (apply Z.eqb_eq; exact Hid).
    rewrite E. unfold set_fields. rewrite Hid. reflexivity.
  - intros other Hne. unfold get_user, user_by_id. simpl.
    rewrite filter_map_same
      by (intros x; rewrite set_fields_keeps_id; reflexivity).
    rewrite map_id_on; [reflexivity|].
    intros x Hx. apply filter_In in Hx. destruct Hx as [_ Hx].
    apply Z.eqb_eq in Hx.
    assert (E : (User.id x =? user_id) = false) by (apply Z.eqb_neq; congruence).
    rewrite E. reflexivity.
Qed.

(** X7.  [update_user] stores nothing when it fails: on an id that no user
    has it answers 404, and on an existing id with an email that another
    user has it fails with [IntegrityError]; the state is the one before. *)
Theorem update_user_failures (user_id : Z) (user : UserCreate.t) (db : Db) :
  match user_by_id user_id db with
  | None =>
      update_user user_id user db =
      (Failed (Handler (HTTPException 404 "User not found")), db)
  | Some _ =>
      (exists u', In u' (users db) /\ User.id u' <> user_id /\
                  User.email u' = UserCreate.email user) ->
      update_user user_id user db = (Failed (IntegrityError "users.email"), db)
  end.
Proof.
  unfold update_user.
  destruct (user_by_id user_id db) as [u|] eqn:E; [|reflexivity].
  intros [u' [Hin [Hne He]]].
  destruct (user_by_id_some db user_id u E) as [_ Hid].
  assert (Ht : email_taken (UserCreate.email user)
                 (filter (fun u' => negb (User.id u' =? User.id u)) (users db)) = true).
  { unfold email_taken. apply existsb_exists. exists u'. split.
    - apply filter_In. split; [exact Hin|].
      apply negb_true_iff, Z.eqb_neq. congruence.
    - apply String.eqb_eq. exact He. }
  rewrite Ht. reflexivity.
Qed.

Lemma kept_rows_distinct {K : Type} (key : User.t -> K) (keep : User.t -> bool)
      (rows : list User.t) :
  NoDup (map key rows) -> NoDup (map key (filter keep rows)).
Proof.
  intros Hnd. induction rows as [|r rows IH]; simpl; [constructor|].
  simpl in Hnd. inversion Hnd as [|? ? Hr Hrows]; subst.
  destruct (keep r); simpl; [|apply IH; exact Hrows].
  constructor; [|apply IH; exact Hrows].
  intros Hin. apply Hr. apply in_map_iff in Hin.
  destruct Hin as [y [Hy Hin]]. apply filter_In in Hin.
  apply in_map_iff. exists y. split; [exact Hy | apply Hin].
Qed.

Lemma NoDup_snoc {A : Type} (l : list A) (x : A) :
  NoDup l -> ~ In x l -> NoDup (l ++ [x]).
Proof.
  intros Hl Hx. apply NoDup_app.
  - exact Hl.
  - constructor; [intros [] | constructor].
  - intros y Hy [<-|[]]. exact (Hx Hy).
Qed.

(** X8.  [create_user] keeps the two constraints of the [users] table when
    the id it is given is not in use: afterwards the ids are still pairwise
    distinct and so are the emails, whether the insert succeeded or was
    refused. *)
Theorem create_user_keeps_constraints (new_id : Z) (user : UserCreate.t) (db : Db) :
  users_wf db ->
  (forall u, In u (users db) -> User.id u <> new_id) ->
  users_wf (snd (create_user new_id user db)).
Proof.
  intros [Hids Hemails] Hfresh. unfold create_user. simpl.
  destruct (email_taken (UserCreate.email user) (users db)) eqn:E; simpl.
  - split; assumption.
  - unfold users_wf. simpl. rewrite !map_app. simpl. split.
    + apply NoDup_snoc; [exact Hids|].
      intros Hin. apply in_map_iff in Hin. destruct Hin as [u [Hu Hin]].
      exact (Hfresh u Hin Hu).
    + apply NoDup_snoc; [exact Hemails|].
      intros Hin. apply in_map_iff in Hin. destruct Hin as [u [Hu Hin]].
      exact (proj1 (email_taken_false _ _) E u Hin Hu).
Qed.

(** X9.  [delete_user] keeps the two constraints of the [users] table. *)
Theorem delete_user_keeps_constraints (user_id : Z) (db : Db) :
  users_wf db -> users_wf (snd (delete_user user_id db)).
Proof.
  intros [Hids Hemails]. unfold delete_user.
  destruct (user_by_id user_id db) as [u|]; simpl; [|split; assumption].
  split; simpl; apply kept_rows_distinct; assumption.
Qed.

Lemma updated_emails (user_id : Z) (user : UserCreate.t) (l : list User.t) (e : string) :
  In e (map User.email
          (map (fun u' => if User.id u' =? user_id then set_fields user u' else u') l)) ->
  e = UserCreate.email user \/ In e (map User.email l).
Proof.
  induction l as [|x l IH]; simpl; [tauto|].
  intros [H|H].
  - destruct (User.id x =? user_id); simpl in H; [left | right; left]; congruence.
  - destruct (IH H) as [H'|H']; [left | right; right]; exact H'.
Qed.

Lemma update_keeps_unique_emails (user_id : Z) (user : UserCreate.t) (l : list User.t) :
  NoDup (map User.id l) ->
  NoDup (map User.email l) ->
  (forall u', In u' l -> User.id u' <> user_id ->
              User.email u' <> UserCreate.email user) ->
  NoDup (map User.email
           (map (fun u' => if User.id u' =? user_id then set_fields user u' else u') l)).
Proof.
  induction l as [|x l IH]; simpl; intros Hids Hemails Hfree; [constructor|].
  inversion Hids as [|? ? Hx Hl]; subst.
  inversion Hemails as [|? ? Hxe Hle]; subst.
  destruct (User.id x =? user_id) eqn:E.
  - apply Z.eqb_eq in E. simpl.
    assert (Hrest : forall y, In y l -> User.id y <> user_id).
    { intros y Hy Heq. apply Hx. apply in_map_iff.
      exists y. split; [congruence | exact Hy]. }
    rewrite map_id_on.
    + constructor; [|exact Hle].
      intros Hin. apply in_map_iff in Hin. destruct Hin as [y [Hy Hin]].
      exact (Hfree y (or_intror Hin) (Hrest y Hin) Hy).
    + intros y Hy.
      assert (E' : (User.id y =? user_id) = false)
        by (apply Z.eqb_neq; exact (Hrest y Hy)).
      rewrite E'. reflexivity.
  - apply Z.eqb_neq in E. constructor.
    + intros Hin. apply updated_emails in Hin. destruct Hin as [Hin|Hin].
      * exact (Hfree x (or_introl eq_refl) E Hin).
      * exact (Hxe Hin).
    + apply IH; [exact Hl | exact Hle|].
      intros u' Hu'. apply Hfree. right. exact Hu'.
Qed.

(** X10.  [update_user] keeps the two constraints of the [users] table,
    whether it stores the new fields or fails. *)
Theorem update_user_keeps_constraints (user_id : Z) (user : UserCreate.t) (db : Db) :
  users_wf db -> users_wf (snd (update_user user_id user db)).
Proof.
  intros [Hids Hemails]. unfold update_user.
  destruct (user_by_id user_id db) as [u|] eqn:Eu; simpl; [|split; assumption].
  destruct (user_by_id_some db user_id u Eu) as [_ Hid]. rewrite Hid.
  destruct (email_taken (UserCreate.email user)
              (filter (fun u' => negb (User.id u' =? user_id)) (users db))) eqn:E;
    simpl; [split; assumption|].
  split; simpl.
  - rewrite map_map.
    replace (map (fun x => User.id (if User.id x =? user_id
                                    then set_fields user x else x)) (users db))
      with (map User.id (users db)); [exact Hids|].
    apply map_ext. intros x. rewrite set_fields_keeps_id. reflexivity.
  - apply update_keeps_unique_emails; [exact Hids | exact Hemails|].
    intros u' Hin Hne.
    apply (proj1 (email_taken_false _ _) E).
    apply filter_In. split; [exact Hin|].
    apply negb_true_iff, Z.eqb_neq. exact Hne.
Qed.

Lemma filter_unique {A B : Type} (f : A -> B) (p : A -> bool) (v : B) (l : list A) :
  (forall x, p x = true -> f x = v) ->
  NoDup (map f l) -> (List.length (filter p l) <= 1)%nat.
Proof.
  intros Hp. induction l as [|x l IH]; simpl; intros H; [lia|].
  inversion H as [|? ? Hx Hl]; subst.
  destruct (p x) eqn:E; [|apply IH; exact Hl].
  rewrite filter_none; [simpl; lia|].
  intros y Hy. destruct (p y) eqn:Ey; [|reflexivity].
  exfalso. apply Hx. apply in_map_iff.
  exists y. split; [|exact Hy].
  rewrite (Hp x E), (Hp y Ey). reflexivity.
Qed.

(** X11.  [filter_users_by_email] lists exactly the stored users that have
    the email; on a table that satisfies its UNIQUE constraint the list
    has at most one user. *)
Theorem filter_users_by_email_spec (email : string) (db : Db) :
  (forall u, In u (filter_users_by_email email db) <->
             In u (users db) /\ User.email u = email) /\
  (users_wf db -> (List.length (filter_users_by_email email db) <= 1)%nat).
Proof.
  unfold filter_users_by_email. split.
  - intros u. rewrite filter_In, String.eqb_eq. reflexivity.
  - intros [_ Hemails].
    apply (filter_unique User.email _ email); [|exact Hemails].
    intros x Hx. apply String.eqb_eq. exact Hx.
Qed.

End UserRepository.

(* ------------------------------------------------------------------ *)
(** ** The order on datetimes and the date-range listing *)

Section DateRange.

Lemma lex_step_trans (x y z : Z) (c1 c2 c3 : comparison) :
  (c1 <> Gt -> c2 <> Gt -> c3 <> Gt) ->
  Datetime.lex (x ?= y) c1 <> Gt ->
  Datetime.lex (y ?= z) c2 <> Gt ->
  Datetime.lex (x ?= z) c3 <> Gt.
Proof.
  intros H.
  destruct (Z.compare_spec x y), (Z.compare_spec y z), (Z.compare_spec x z);
    simpl; intros Hxy Hyz; try congruence; try lia; auto.
Qed.

Lemma dt_le_trans (a b c : Datetime.t) : dt_le a b -> dt_le b c -> dt_le a c.
Proof.
  unfold dt_le, Datetime.compare.
  repeat apply lex_step_trans.
  apply Z.le_trans.
Qed.

Lemma lex_opp (c1 c2 : comparison) :
  Datetime.lex (CompOpp c1) (CompOpp c2) = CompOpp (Datetime.lex c1 c2).
Proof. destruct c1; reflexivity. Qed.

Lemma datetime_compare_antisym (a b : Datetime.t) :
  Datetime.compare b a = CompOpp (Datetime.compare a b).
Proof.
  unfold Datetime.compare.
  rewrite (Z.compare_antisym (Datetime.year a)),
          (Z.compare_antisym (Datetime.month a)),
          (Z.compare_antisym (Datetime.day a)),
          (Z.compare_antisym (Datetime.hour a)),
          (Z.compare_antisym (Datetime.minute a)),
          (Z.compare_antisym (Datetime.second a)),
          (Z.compare_antisym (Datetime.microsecond a)).
  rewrite !lex_opp. reflexivity.
Qed.

(** X12.  When [end_date] is earlier than [start_date] the listing of
    [filter_transactions_by_date] is empty, whatever is stored. *)
Theorem filter_transactions_by_date_reversed (start_date end_date : Datetime.t)
        (db : Db) :
  Datetime.ltb end_date start_date = true ->
  filter_transactions_by_date start_date end_date db = [].
Proof.
  intros Hlt. unfold filter_transactions_by_date.
  apply filter_none. intros t _.
  destruct (Datetime.leb start_date (Transaction.date t)
            && Datetime.leb (Transaction.date t) end_date) eqn:E; [|reflexivity].
  apply andb_true_iff in E. destruct E as [H1 H2].
  apply datetime_leb_le in H1. apply datetime_leb_le in H2.
  pose proof (dt_le_trans _ _ _ H1 H2) as H. unfold dt_le in H.
  unfold Datetime.ltb in Hlt.
  rewrite datetime_compare_antisym in Hlt.
  destruct (Datetime.compare start_date end_date); simpl in Hlt;
    congruence.
Qed.

(** X13.  Widening the range never loses a transaction: every transaction
    listed for [start_date, end_date] is listed for any range that starts
    no later and ends no earlier. *)
Theorem filter_transactions_by_date_monotone
        (start_date end_date start_date' end_date' : Datetime.t) (db : Db) :
  Datetime.leb start_date' start_date = true ->
  Datetime.leb end_date end_date' = true ->
  forall t, In t (filter_transactions_by_date start_date end_date db) ->
            In t (filter_transactions_by_date start_date' end_date' db).
Proof.
  intros Hs He t. unfold filter_transactions_by_date.
  rewrite !filter_In, !andb_true_iff, !datetime_leb_le.
  apply datetime_leb_le in Hs. apply datetime_leb_le in He.
  intros [Hin [H1 H2]]. split; [exact Hin|]. split.
  - exact (dt_le_trans _ _ _ Hs H1).
  - exact (dt_le_trans _ _ _ H2 He).
Qed.

End DateRange.

Lemma filter_transactions_by_date_reversed_witness :
  Datetime.ltb (at_ 2024 3 1 0) (at_ 2024 4 1 0) = true /\
  filter_transactions_by_date (at_ 2024 4 1 0) (at_ 2024 3 1 0) db_spent = [].
Proof.
  split; [reflexivity|].
  exact (filter_transactions_by_date_reversed
           (at_ 2024 4 1 0) (at_ 2024 3 1 0) db_spent eq_refl).
Defined.

Lemma filter_transactions_by_date_monotone_witness :
  Datetime.leb (at_ 2024 1 1 0) (at_ 2024 3 1 0) = true /\
  Datetime.leb (at_ 2024 3 31 0) (at_ 2024 12 31 0) = true /\
  In (txn 2 50 "food" (at_ 2024 3 20 9) (Some 1))
     (filter_transactions_by_date (at_ 2024 1 1 0) (at_ 2024 12 31 0) db_spent).
Proof.
  split; [reflexivity|]. split; [reflexivity|].
  apply (filter_transactions_by_date_monotone
           (at_ 2024 3 1 0) (at_ 2024 3 31 0) (at_ 2024 1 1 0) (at_ 2024 12 31 0)
           db_spent eq_refl eq_refl).
  simpl. right. left. reflexivity.
Defined.

(* ------------------------------------------------------------------ *)
(** ** What [delete_user] does to the listings and totals *)

Section AfterDelete.

Lemma detach_transaction_fields (uid : Z) (t : Transaction.t) :
  Transaction.category (detach_transaction uid t) = Transaction.category t /\
  Transaction.amount (detach_transaction uid t) = Transaction.amount t.
Proof.
  unfold detach_transaction.
  destruct (opt_eqb (Transaction.user_id t) (Some uid)); split; reflexivity.
Qed.

Lemma detached_transactions_of (uid other : Z) (l : list Transaction.t) :
  filter (fun t => opt_eqb (Transaction.user_id t) (Some other))
         (map (detach_transaction uid) l) =
  if other =? uid then []
  else filter (fun t => opt_eqb (Transaction.user_id t) (Some other)) l.
Proof.
  induction l as [|t l IH]; simpl; [destruct (other =? uid); reflexivity|].
  rewrite IH. unfold detach_transaction.
  destruct (other =? uid) eqn:E.
  - apply Z.eqb_eq in E. subst other.
    destruct (opt_eqb (Transaction.user_id t) (Some uid)) eqn:Et; simpl.
    + reflexivity.
    + rewrite Et. reflexivity.
  - destruct (opt_eqb (Transaction.user_id t) (Some uid)) eqn:Et; simpl.
    + apply opt_eqb_eq in Et. rewrite Et. simpl.
      rewrite Z.eqb_sym, E. reflexivity.
    + reflexivity.
Qed.

Lemma detached_budgets_of (uid other : Z) (l : list Budget.t) :
  filter (fun b => opt_eqb (Budget.user_id b) (Some other))
         (map (detach_budget uid) l) =
  if other =? uid then []
  else filter (fun b => opt_eqb (Budget.user_id b) (Some other)) l.
Proof.
  induction l as [|b l IH]; simpl; [destruct (other =? uid); reflexivity|].
  rewrite IH. unfold detach_budget.
  destruct (other =? uid) eqn:E.
  - apply Z.eqb_eq in E. subst other.
    destruct (opt_eqb (Budget.user_id b) (Some uid)) eqn:Eb; simpl.
    + reflexivity.
    + rewrite Eb. reflexivity.
  - destruct (opt_eqb (Budget.user_id b) (Some uid)) eqn:Eb; simpl.
    + apply opt_eqb_eq in Eb. rewrite Eb. simpl.
      rewrite Z.eqb_sym, E. reflexivity.
    + reflexivity.
Qed.

(** X14.  After an existing user is deleted, nothing is listed or totalled
    under the user's id any more: [get_transactions_for_user] and
    [get_budgets_for_user] return the empty list, [get_total_spent] and
    [get_total_budget] return null. *)
Theorem delete_user_empties_user_queries (user_id : Z) (db : Db) (u : User.t) :
  user_by_id user_id db = Some u ->
  let db' := snd (delete_user user_id db) in
  get_transactions_for_user user_id db' = [] /\
  get_total_spent user_id db' = None /\
  get_budgets_for_user user_id db' = [] /\
  get_total_budget user_id db' = None.
Proof.
  intros Hu. simpl.
  destruct (user_by_id_some db user_id u Hu) as [_ Hid].
  unfold delete_user. rewrite Hu. simpl. rewrite Hid.
  unfold get_transactions_for_user, get_total_spent,
    get_budgets_for_user, get_total_budget. simpl.
  rewrite detached_transactions_of, detached_budgets_of, Z.eqb_refl.
  repeat split.
Qed.

(** X15.  Deleting a user changes nothing for the other users: the
    transactions and budgets listed for any other id, and the two totals
    of that id, are the same after the delete as before. *)
Theorem delete_user_keeps_other_children (user_id other : Z) (db : Db) :
  other <> user_id ->
  let db' := snd (delete_user user_id db) in
  get_transactions_for_user other db' = get_transactions_for_user other db /\
  get_total_spent other db' = get_total_spent other db /\
  get_budgets_for_user other db' = get_budgets_for_user other db /\
  get_total_budget other db' = get_total_budget other db.
Proof.
  intros Hne. simpl. unfold delete_user.
  destruct (user_by_id user_id db) as [u|] eqn:Hu; simpl; [|repeat split].
  destruct (user_by_id_some db user_id u Hu) as [_ Hid]. rewrite Hid.
  assert (E : (other =? user_id) = false) by (apply Z.eqb_neq; exact Hne).
  unfold get_transactions_for_user, get_total_spent,
    get_budgets_for_user, get_total_budget. simpl.
  rewrite detached_transactions_of, detached_budgets_of, E.
  repeat split.
Qed.

Lemma fold_left_map {A B C : Type} (f : A -> B -> A) (g : C -> B) (l : list C) :
  forall a, fold_left f (map g l) a = fold_left (fun a x => f a (g x)) l a.
Proof.
  induction l as [|x l IH]; intros a; simpl; [reflexivity | apply IH].
Qed.

Lemma fold_left_ext {A B : Type} (f g : A -> B -> A) (l : list B) :
  (forall a x, f a x = g a x) ->
  forall a, fold_left f l a = fold_left g l a.
Proof.
  intros H. induction l as [|x l IH]; intros a; simpl; [reflexivity|].
  rewrite H. apply IH.
Qed.

Lemma group_by_sum_detached (uid : Z) (l : list Transaction.t) :
  group_by_sum (map (detach_transaction uid) l) = group_by_sum l.
Proof.
  unfold group_by_sum. rewrite fold_left_map.
  apply fold_left_ext. intros a x.
  destruct (detach_transaction_fields uid x) as [Hc Ha].
  rewrite Hc, Ha. reflexivity.
Qed.

Lemma category_rows_detached (uid : Z) (c : string) (l : list Transaction.t) :
  filter (fun t => String.eqb (Transaction.category t) c)
         (map (detach_transaction uid) l) =
  map (detach_transaction uid)
      (filter (fun t => String.eqb (Transaction.category t) c) l).
Proof.
  apply filter_map_same. intros x.
  destruct (detach_transaction_fields uid x) as [Hc _].
  rewrite Hc. reflexivity.
Qed.

Lemma amounts_detached (uid : Z) (l : list Transaction.t) :
  map Transaction.amount (map (detach_transaction uid) l) =
  map Transaction.amount l.
Proof.
  rewrite map_map. apply map_ext. intros x.
  exact (proj2 (detach_transaction_fields uid x)).
Qed.

(** X16.  Deleting a user removes no transaction and changes no amount or
    category, so the figures that do not look at the owner are unchanged:
    the number of transactions, the count and the total of every category,
    and the highest spending category. *)
Theorem delete_user_keeps_category_figures (user_id : Z) (db : Db) :
  let db' := snd (delete_user user_id db) in
  get_total_transactions_count db' = get_total_transactions_count db /\
  (forall c, get_transactions_count_by_category c db' =
             get_transactions_count_by_category c db) /\
  (forall c, get_total_spending_by_category c db' =
             get_total_spending_by_category c db) /\
  get_highest_spending_category db' = get_highest_spending_category db.
Proof.
  simpl. unfold delete_user.
  destruct (user_by_id user_id db) as [u|]; simpl; [|repeat split].
  split; [|split; [|split]].
  - unfold get_total_transactions_count. simpl.
    rewrite !count_length, length_map. reflexivity.
  - intros c. unfold get_transactions_count_by_category. simpl.
    rewrite category_rows_detached, !count_length, length_map. reflexivity.
  - intros c. unfold get_total_spending_by_category. simpl.
    rewrite category_rows_detached, amounts_detached. reflexivity.
  - unfold get_highest_spending_category. simpl.
    rewrite group_by_sum_detached. reflexivity.
Qed.

End AfterDelete.

(* ------------------------------------------------------------------ *)
(** ** Category figures *)

Section CategoryFigures.

(** X17.  The total of a category is null exactly when the count of that
    category is zero. *)
Theorem spending_null_iff_count_zero (category : string) (db : Db) :
  get_total_spending_by_category category db = None <->
  get_transactions_count_by_category category db = 0.
Proof.
  unfold get_total_spending_by_category, get_transactions_count_by_category.
  rewrite func_sum_none_iff, count_length.
  destruct (filter (fun t => String.eqb (Transaction.category t) category)
                   (transactions db)) as [|t l]; simpl.
  - split; reflexivity.
  - split; [discriminate | lia].
Qed.

Lemma spending_some (c : string) (db : Db) (s : Q) :
  get_total_spending_by_category c db = Some s ->
  In c (map Transaction.category (transactions db)) /\
  (s == category_total c (transactions db))%Q.
Proof.
  unfold get_total_spending_by_category, category_total.
  destruct (filter (fun t => String.eqb (Transaction.category t) c)
                   (transactions db)) as [|t l] eqn:E; [discriminate|].
  simpl map. intros H.
  destruct (func_sum_cons (Transaction.amount t) (map Transaction.amount l))
    as [s' [Hs' Heq]].
  rewrite Hs' in H. injection H as <-.
  split; [|exact Heq].
  assert (Hin : In t (filter (fun t => String.eqb (Transaction.category t) c)
                             (transactions db)))
    by (rewrite E; left; reflexivity).
  apply filter_In in Hin. destruct Hin as [Hin Hc].
  apply String.eqb_eq in Hc. apply in_map_iff.
  exists t. split; [exact Hc | exact Hin].
Qed.

Lemma spending_of_present (c : string) (db : Db) :
  In c (map Transaction.category (transactions db)) ->
  exists s, get_total_spending_by_category c db = Some s /\
            (s == category_total c (transactions db))%Q.
Proof.
  intros Hin. apply in_map_iff in Hin. destruct Hin as [t [Hc Hin]].
  unfold get_total_spending_by_category, category_total.
  destruct (filter (fun t => String.eqb (Transaction.category t) c)
                   (transactions db)) as [|t' l] eqn:E.
  - assert (Hf : In t (filter (fun t => String.eqb (Transaction.category t) c)
                              (transactions db)))
      by (apply filter_In; split; [exact Hin | apply String.eqb_eq; exact Hc]).
    rewrite E in Hf. destruct Hf.
  - simpl map. apply func_sum_cons.
Qed.

Lemma highest_row_is_max (rows : list Transaction.t) (c : string) (total : Q) :
  first (order_by_desc (group_by_sum rows)) = Some (c, total) ->
  In c (map Transaction.category rows) /\
  (total == category_total c rows)%Q /\
  forall c', In c' (map Transaction.category rows) ->
             (category_total c' rows <= total)%Q.
Proof.
  intros Hfirst.
  destruct (group_by_sum_spec rows) as [_ [Hval Hkeys]].
  pose proof (first_order_by_desc (group_by_sum rows)) as H.
  destruct (group_by_sum rows) as [|g gs] eqn:Eg.
  - rewrite H in Hfirst. discriminate.
  - destruct H as [r [Hr [Hin Hmax]]].
    rewrite Hr in Hfirst. injection Hfirst as ->.
    destruct (Hval _ _ Hin) as [Hc Hs].
    split; [exact Hc|]. split; [exact Hs|].
    intros c' Hc'. apply Hkeys in Hc'. apply in_map_iff in Hc'.
    destruct Hc' as [[k s] [Hk Hks]]. simpl in Hk. subst k.
    destruct (Hval _ _ Hks) as [_ Hs'].
    rewrite <- Hs'. exact (Hmax _ Hks).
Qed.

(** X18.  The answer of [get_highest_spending_category] agrees with
    [get_total_spending_by_category]: the total it returns is the total of
    the returned category, and no category has a larger total. *)
Theorem highest_agrees_with_category_totals (db : Db) (c : string) (total : Q) :
  get_highest_spending_category db = Ok (c, total) ->
  (exists s, get_total_spending_by_category c db = Some s /\ (s == total)%Q) /\
  (forall c' s', get_total_spending_by_category c' db = Some s' ->
                 (s' <= total)%Q).
Proof.
  unfold get_highest_spending_category. intros H.
  destruct (first (order_by_desc (group_by_sum (transactions db))))
    as [[c0 t0]|] eqn:E; [|discriminate].
  simpl in H. injection H as -> ->.
  destruct (highest_row_is_max _ _ _ E) as [Hc [Hs Hmax]].
  split.
  - destruct (spending_of_present c db Hc) as [s [Hsome Heq]].
    exists s. split; [exact Hsome|]. rewrite Heq, Hs. reflexivity.
  - intros c' s' Hs'. apply spending_some in Hs'.
    destruct Hs' as [Hc' Heq]. rewrite Heq. exact (Hmax c' Hc').
Qed.

End CategoryFigures.

(* ------------------------------------------------------------------ *)
(** ** What [extend_budget] changes, and the two budget analytics *)

Section BudgetFigures.

Lemma extended_fields (budget_id : Z) (d : Datetime.t) (b : Budget.t) :
  Budget.id (extended budget_id d b) = Budget.id b /\
  Budget.amount (extended budget_id d b) = Budget.amount b /\
  Budget.category (extended budget_id d b) = Budget.category b /\
  Budget.user_id (extended budget_id d b) = Budget.user_id b.
Proof.
  unfold extended. destruct (Budget.id b =? budget_id); repeat split.
Qed.

Lemma extend_budget_state (budget_id : Z) (d : Datetime.t) (db : Db) (b : Budget.t) :
  budget_by_id budget_id db = Some b ->
  extend_budget budget_id d db =
  (Ok (set_end_date b d),
   mkDb (users db) (transactions db) (map (extended budget_id d) (budgets db))).
Proof.
  intros Hb. destruct (lookup_some db budget_id b Hb) as [_ Hid].
  unfold extend_budget. rewrite Hb, Hid. reflexivity.
Qed.

Lemma budget_by_id_extended (budget_id other : Z) (d : Datetime.t) (l : list Budget.t) :
  first (filter (fun b => Budget.id b =? other) (map (extended budget_id d) l)) =
  option_map (extended budget_id d)
             (first (filter (fun b => Budget.id b =? other) l)).
Proof.
  rewrite filter_map_same, first_map; [reflexivity|].
  intros x. destruct (extended_fields budget_id d x) as [Hid _].
  rewrite Hid. reflexivity.
Qed.

(** X19.  The two budget analytics do not look at the dates of a budget:
    after [extend_budget], on any budget and with any date,
    [check_budget_exceeded] and [get_budget_utilization] answer for every
    budget id what they answered before. *)
Theorem analytics_ignore_end_date (budget_id other : Z) (d : Datetime.t) (db : Db) :
  let db' := snd (extend_budget budget_id d db) in
  check_budget_exceeded other db' = check_budget_exceeded other db /\
  get_budget_utilization other db' = get_budget_utilization other db.
Proof.
  simpl.
  destruct (budget_by_id budget_id db) as [b|] eqn:Hb.
  - rewrite (extend_budget_state _ d _ _ Hb). simpl.
    unfold check_budget_exceeded, get_budget_utilization, budget_by_id. simpl.
    rewrite budget_by_id_extended.
    destruct (first (filter (fun b0 => Budget.id b0 =? other) (budgets db)))
      as [b0|]; simpl; [|split; reflexivity].
    destruct (extended_fields budget_id d b0) as [_ [Ha [Hc Hu]]].
    unfold budget_rows. simpl. rewrite Ha, Hc, Hu. split; reflexivity.
  - unfold extend_budget. rewrite Hb. simpl. split; reflexivity.
Qed.

(** X20.  Of two successive [extend_budget] on the same budget the last
    one wins: the result and the state are those of the second call
    alone. *)
Theorem extend_budget_last_wins (budget_id : Z) (d1 d2 : Datetime.t) (db : Db) :
  extend_budget budget_id d2 (snd (extend_budget budget_id d1 db)) =
  extend_budget budget_id d2 db.
Proof.
  destruct (budget_by_id budget_id db) as [b|] eqn:Hb.
  - destruct (lookup_some db budget_id b Hb) as [_ Hid].
    rewrite (extend_budget_state _ d1 _ _ Hb). simpl.
    rewrite (extend_budget_state _ d2 _ _ Hb).
    assert (Hb1 : budget_by_id budget_id
                    (mkDb (users db) (transactions db)
                          (map (extended budget_id d1) (budgets db))) =
                  Some (set_end_date b d1)).
    { unfold budget_by_id. simpl. rewrite budget_by_id_extended.
      unfold budget_by_id in Hb. rewrite Hb. simpl.
      unfold extended.
      assert (E : (Budget.id b =? budget_id) = true) by (apply Z.eqb_eq; exact Hid).
      rewrite E. reflexivity. }
    rewrite (extend_budget_state _ d2 _ _ Hb1). simpl.
    f_equal. f_equal. rewrite map_map. apply map_ext.
    intros x. unfold extended.
    destruct (Budget.id x =? budget_id) eqn:E; simpl; rewrite E; reflexivity.
  - unfold extend_budget. rewrite Hb. simpl. rewrite Hb. reflexivity.
Qed.

(** X21.  [extend_budget] changes no listing and no total of budgets
    beyond the end date itself: for every user the total budget is the
    same, and the budgets listed for a user or for a category are the same
    budgets (same ids, same order). *)
Theorem extend_budget_keeps_totals (budget_id : Z) (d : Datetime.t) (db : Db) :
  let db' := snd (extend_budget budget_id d db) in
  (forall user_id, get_total_budget user_id db' = get_total_budget user_id db) /\
  (forall user_id, map Budget.id (get_budgets_for_user user_id db') =
                   map Budget.id (get_budgets_for_user user_id db)) /\
  (forall c, map Budget.id (filter_budgets_by_category c db') =
             map Budget.id (filter_budgets_by_category c db)).
Proof.
  simpl.
  destruct (budget_by_id budget_id db) as [b|] eqn:Hb;
    [|unfold extend_budget; rewrite Hb; simpl; repeat split].
  rewrite (extend_budget_state _ d _ _ Hb). simpl.
  assert (Hids : forall l, map Budget.id (map (extended budget_id d) l) =
                           map Budget.id l).
  { intros l. rewrite map_map. apply map_ext. intros x.
    exact (proj1 (extended_fields budget_id d x)). }
  split; [|split].
  - intros user_id. unfold get_total_budget. simpl.
    rewrite filter_map_same, map_map.
    + f_equal. apply map_ext. intros x.
      exact (proj1 (proj2 (extended_fields budget_id d x))).
    + intros x. destruct (extended_fields budget_id d x) as [_ [_ [_ Hu]]].
      rewrite Hu. reflexivity.
  - intros user_id. unfold get_budgets_for_user. simpl.
    rewrite filter_map_same; [apply Hids|].
    intros x. destruct (extended_fields budget_id d x) as [_ [_ [_ Hu]]].
    rewrite Hu. reflexivity.
  - intros c. unfold filter_budgets_by_category. simpl.
    rewrite filter_map_same; [apply Hids|].
    intros x. destruct (extended_fields budget_id d x) as [_ [_ [Hc _]]].
    rewrite Hc. reflexivity.
Qed.

(** X22.  For a budget with a positive amount the two analytics agree:
    when both answer, the budget is reported exceeded exactly when its
    utilization is above 1. *)
Theorem exceeded_iff_utilization_above_one (budget_id : Z) (db : Db)
        (b : Budget.t) (r : bool) (u : Q) :
  budget_by_id budget_id db = Some b ->
  (0 < Budget.amount b)%Q ->
  check_budget_exceeded budget_id db = Ok r ->
  get_budget_utilization budget_id db = Ok u ->
  (r = true <-> (1 < u)%Q).
Proof.
  intros Hb Hpos Hr Hu.
  unfold check_budget_exceeded in Hr. unfold get_budget_utilization in Hu.
  rewrite Hb in Hr, Hu. simpl in Hr, Hu.
  assert (Hg : Qgtb (Budget.amount b) 0 = true) by (apply Qgtb_true_iff; exact Hpos).
  rewrite Hg in Hu.
  destruct (func_sum (map Transaction.amount (budget_rows b db))) as [s|];
    simpl in Hr, Hu; [|discriminate].
  injection Hr as <-. injection Hu as <-.
  rewrite Qgtb_true_iff. split.
  - intros H. apply Qlt_shift_div_l; [exact Hpos|].
    rewrite Qmult_1_l. exact H.
  - intros H. apply Qnot_le_lt. intros Hle.
    apply (Qlt_not_le _ _ H).
    apply Qle_shift_div_r; [exact Hpos|].
    rewrite Qmult_1_l. exact Hle.
Qed.

(** X23.  For an existing budget whose amount is zero or negative,
    [get_budget_utilization] returns 0 whatever was spent, also where
    [check_budget_exceeded] raises for want of a matching transaction. *)
Theorem utilization_of_non_positive_budget (budget_id : Z) (db : Db) (b : Budget.t) :
  budget_by_id budget_id db = Some b ->
  (Budget.amount b <= 0)%Q ->
  get_budget_utilization budget_id db = Ok 0%Q.
Proof.
  intros Hb Hle. unfold get_budget_utilization. rewrite Hb. simpl.
  destruct (Qgtb (Budget.amount b) 0) eqn:E; [|reflexivity].
  apply Qgtb_true_iff in E. exfalso. exact (Qlt_not_le _ _ E Hle).
Qed.

End BudgetFigures.

(* ------------------------------------------------------------------ *)
(** ** The monthly report and the user's transactions *)

(** X26.  For a user who has no transaction at all, the monthly report is
    null in every month but the last representable one. *)
Theorem monthly_report_of_user_without_transactions
        (user_id : Z) (now : Datetime.t) (db : Db) :
  1 <= Datetime.month now <= 12 ->
  Datetime.month now < 12 \/ Datetime.year now < Datetime.MAXYEAR ->
  get_transactions_for_user user_id db = [] ->
  get_monthly_spending_report user_id now db = Ok None.
Proof.
  intros Hm Hy Hnone.
  rewrite get_monthly_spending_report_window by assumption.
  rewrite filter_none; [reflexivity|].
  intros t Ht.
  destruct (opt_eqb (Transaction.user_id t) (Some user_id)) eqn:E; [|reflexivity].
  exfalso.
  assert (Hin : In t (get_transactions_for_user user_id db)).
  { unfold get_transactions_for_user. apply filter_In. split; assumption. }
  rewrite Hnone in Hin. destruct Hin.
Qed.

(* ------------------------------------------------------------------ *)
(** ** Instances *)

Lemma db_two_users_wf : users_wf db_two_users.
Proof.
  split; simpl; repeat constructor; simpl; intuition discriminate.
Qed.

Lemma no_user_3 : forall u, In u (users db_two_users) -> User.id u <> 3.
Proof. intros u [<-|[<-|[]]]; simpl; discriminate. Qed.

Lemma no_email_cy :
  forall u, In u (users db_two_users) -> User.email u <> "cy@example.org".
Proof. intros u [<-|[<-|[]]]; simpl; discriminate. Qed.

Lemma create_user_then_get_user_witness :
  let cy := User.mk 3 "cy" "cy@example.org" in
  let db' := snd (create_user 3 (UserCreate.mk "cy" "cy@example.org") db_two_users) in
  fst (create_user 3 (UserCreate.mk "cy" "cy@example.org") db_two_users) = Returned cy /\
  get_user 3 db' = Ok cy /\
  In cy (filter_users_by_email "cy@example.org" db').
Proof.
  exact (create_user_then_get_user 3 (UserCreate.mk "cy" "cy@example.org")
           db_two_users no_user_3 no_email_cy).
Defined.

Lemma create_user_duplicate_email_witness :
  create_user 3 (UserCreate.mk "bobby" "bob@example.org") db_two_users =
  (Failed (IntegrityError "users.email"), db_two_users).
Proof.
  apply create_user_duplicate_email.
  exists (User.mk 2 "bob" "bob@example.org").
  split; [simpl; right; left; reflexivity | reflexivity].
Defined.

Lemma create_user_frame_witness :
  let db' := snd (create_user 3 (UserCreate.mk "cy" "cy@example.org") db_two_users) in
  get_user 2 db' = get_user 2 db_two_users /\
  transactions db' = transactions db_two_users /\
  budgets db' = budgets db_two_users.
Proof.
  apply (create_user_frame 3 (UserCreate.mk "cy" "cy@example.org") db_two_users 2).
  discriminate.
Defined.

Lemma delete_user_keeps_other_users_witness :
  get_user 2 (snd (delete_user 1 db_two_users)) = get_user 2 db_two_users.
Proof.
  apply delete_user_keeps_other_users. discriminate.
Defined.

Lemma update_user_then_get_user_witness :
  let updated := User.mk 1 "anna" "anna@example.org" in
  let db' := snd (update_user 1 (UserCreate.mk "anna" "anna@example.org") db_two_users) in
  fst (update_user 1 (UserCreate.mk "anna" "anna@example.org") db_two_users) =
    Returned updated /\
  get_user 1 db' = Ok updated /\
  (forall other, other <> 1 -> get_user other db' = get_user other db_two_users) /\
  transactions db' = transactions db_two_users /\
  budgets db' = budgets db_two_users.
Proof.
  apply (update_user_then_get_user 1 (UserCreate.mk "anna" "anna@example.org")
           db_two_users (User.mk 1 "ann" "ann@example.org") eq_refl).
  intros u [<-|[<-|[]]] _; simpl; discriminate.
Defined.

Lemma create_user_keeps_constraints_witness :
  users_wf (snd (create_user 3 (UserCreate.mk "cy" "cy@example.org") db_two_users)).
Proof.
  exact (create_user_keeps_constraints 3 (UserCreate.mk "cy" "cy@example.org")
           db_two_users db_two_users_wf no_user_3).
Defined.

Lemma delete_user_keeps_constraints_witness :
  users_wf (snd (delete_user 1 db_two_users)).
Proof.
  exact (delete_user_keeps_constraints 1 db_two_users db_two_users_wf).
Defined.

Lemma update_user_keeps_constraints_witness :
  users_wf (snd (update_user 1 (UserCreate.mk "anna" "anna@example.org") db_two_users)).
Proof.
  exact (update_user_keeps_constraints 1 (UserCreate.mk "anna" "anna@example.org")
           db_two_users db_two_users_wf).
Defined.

Lemma delete_user_empties_user_queries_witness :
  let db' := snd (delete_user 1 db_two_users) in
  get_transactions_for_user 1 db' = [] /\
  get_total_spent 1 db' = None /\
  get_budgets_for_user 1 db' = [] /\
  get_total_budget 1 db' = None.
Proof.
  exact (delete_user_empties_user_queries 1 db_two_users
           (User.mk 1 "ann" "ann@example.org") eq_refl).
Defined.

Lemma delete_user_keeps_other_children_witness :
  let db' := snd (delete_user 2 db_two_users) in
  get_transactions_for_user 1 db' = get_transactions_for_user 1 db_two_users /\
  get_total_spent 1 db' = get_total_spent 1 db_two_users /\
  get_budgets_for_user 1 db' = get_budgets_for_user 1 db_two_users /\
  get_total_budget 1 db' = get_total_budget 1 db_two_users.
Proof.
  apply (delete_user_keeps_other_children 2 1 db_two_users). discriminate.
Defined.

Lemma highest_agrees_with_category_totals_witness :
  (exists s, get_total_spending_by_category "B" db_abc = Some s /\ (s == 50)%Q) /\
  (forall c' s', get_total_spending_by_category c' db_abc = Some s' -> (s' <= 50)%Q).
Proof.
  exact (highest_agrees_with_category_totals db_abc "B" 50%Q eq_refl).
Defined.

Lemma exceeded_iff_utilization_above_one_witness :
  (0 < 100)%Q /\
  check_budget_exceeded 1 db_spent = Ok true /\
  get_budget_utilization 1 db_spent = Ok (110 # 100) /\
  (true = true <-> (1 < 110 # 100)%Q).
Proof.
  split; [reflexivity|]. split; [reflexivity|]. split; [reflexivity|].
  exact (exceeded_iff_utilization_above_one 1 db_spent
           (Budget.mk 1 "groceries" 100 "food" (at_ 2024 1 1 0) (at_ 2024 12 31 0) (Some 1))
           true (110 # 100) eq_refl eq_refl eq_refl eq_refl).
Defined.

Lemma utilization_of_non_positive_budget_witness :
  (-5 <= 0)%Q /\
  check_budget_exceeded 1 db_negative_budget = Ok true /\
  get_budget_utilization 1 db_negative_budget = Ok 0%Q.
Proof.
  assert (H : (-5 <= 0)%Q) by (unfold Qle; simpl; lia).
  split; [exact H|]. split; [reflexivity|].
  exact (utilization_of_non_positive_budget 1 db_negative_budget
           (Budget.mk 1 "refund" (-5) "food" (at_ 2024 1 1 0) (at_ 2024 12 31 0) (Some 1))
           eq_refl H).
Defined.

Lemma get_monthly_spending_report_window_witness :
  let now := Datetime.mk 2024 3 15 12 0 0 0 in
  window_start now = Datetime.mk 2024 3 1 12 0 0 0 /\
  window_end now = Datetime.mk 2024 4 1 12 0 0 0 /\
  get_monthly_spending_report 1 now db_spent =
  Ok (func_sum
        (map Transaction.amount
           (filter (fun t => opt_eqb (Transaction.user_id t) (Some 1)
                             && Datetime.leb (window_start now) (Transaction.date t)
                             && Datetime.ltb (Transaction.date t) (window_end now))
                   (transactions db_spent)))).
Proof.
  split; [reflexivity|]. split; [reflexivity|].
  apply (get_monthly_spending_report_window 1 (Datetime.mk 2024 3 15 12 0 0 0) db_spent).
  - simpl. lia.
  - left. simpl. lia.
Defined.

Lemma get_monthly_spending_report_overflow_witness :
  get_monthly_spending_report 1 (Datetime.mk 9999 12 15 12 0 0 0) db_spent =
  Raise OverflowError.
Proof.
  apply get_monthly_spending_report_overflow.
  - reflexivity.
  - simpl. unfold Datetime.MAXYEAR. lia.
Defined.

Lemma monthly_report_of_user_without_transactions_witness :
  get_transactions_for_user 2 db_two_users = [] /\
  get_monthly_spending_report 2 (Datetime.mk 2024 3 15 12 0 0 0) db_two_users = Ok None.
Proof.
  split; [reflexivity|].
  apply monthly_report_of_user_without_transactions.
  - simpl. lia.
  - left. simpl. lia.
  - reflexivity.
Defined.
